(** * Table pull logic of the offline sync client (sdk/src/sync/pull.js)

    A shallow embedding of [createPullManager]: the closure variables of the
    pull manager become the fields of a state record, every promise-returning
    function becomes a computation in a small state-and-rejection monad, and
    the recursion of [pullAllPages] through promise continuations is bounded
    by a fuel argument.

    Conventions of the model.
    - A JavaScript [Date] is its time value [getTime()], an integer number of
      milliseconds ([Z]); the Invalid Date is left out.
    - The collaborators (remote table, operation table manager, local store)
      always settle their promises successfully; the only rejections are the
      [throw]s of pull.js itself.  What the remote table and the operation
      table manager answer is arbitrary: it is a function of the call and of
      everything that was called before it.
    - Every call to a collaborator is appended to a log together with its
      answer, so that statements about what is, or is not, issued can be made
      on the log. *)

From Stdlib Require Import ZArith List String Bool Lia.
From stdpp Require Import base option list strings gmap sorting.
Import ListNotations.
Local Open Scope Z_scope.

(** ** JavaScript values that occur in records and settings *)

Inductive JsValue : Type :=
| JUndefined
| JNull
| JBool (b : bool)
| JNum (n : Z)          (* an integral number *)
| JStr (s : string)
| JDate (t : Z)         (* a Date, by its time value in milliseconds *)
| JOther.               (* anything else: an object, a non-integral number *)

(** The constants of [constants.table] that pull.js reads. *)
Definition defaultPageSize : Z := 50.
Definition updatedAtColumnName : string := "updatedAt"%string.

(** Modelled from the spec: [_.isValidId] of Utilities/Extensions, which is
    not part of the sources at hand; the spec asks for "a non-empty valid
    identifier".  Only used by [processSingleRecord]. *)
Definition isValidId (v : JsValue) : bool :=
  match v with
  | JStr s => negb (String.eqb s EmptyString)
  | JNum n => 0 <? n
  | _ => false
  end.

(** ** Pulled records: the three properties pull.js looks at *)

Module PulledRecord.
Record t : Type := mk {
  id : JsValue;          (* record[idPropertyName] *)
  deleted : JsValue;     (* record[sysProps.deletedColumnName] *)
  updatedAt : JsValue    (* record[sysProps.updatedAtColumnName] *)
}.
End PulledRecord.

(** A pending operation of the operation table; pull.js only looks at the
    length of the array of them. *)
Record PendingOperation : Type := { operationId : Z; itemId : JsValue }.

(** ** Queries (azure-query-js), by their components *)

Inductive Filter : Type :=
| FExpr (odata : string)          (* a filter of the caller's query *)
| FUpdatedAtGe (since : Z)        (* this.updatedAt >= lastKnownUpdatedAt *)
| FAnd (l r : Filter).

Module Components.
Record t : Type := mk {
  table : string;
  filters : option Filter;             (* null when there is no filter *)
  ordering : list (string * bool);     (* property name, ascending? *)
  skip : option Z;                     (* null or a number *)
  take : option Z;                     (* null or a number *)
  selections : list string;
  includeTotalCount : bool
}.
End Components.

Module Query.
Import Components.

(** A query object is the components it holds. *)
Definition t : Type := Components.t.

Definition getComponents (q : t) : Components.t := q.

(** [new Query(components.table)] followed by [setComponents(components)] *)
Definition setComponents (components : Components.t) : t := components.

(** [where] conjoins one more filter. *)
Definition where_ (f : Filter) (q : t) : t :=
  mk (table q)
     (match filters q with None => Some f | Some g => Some (FAnd g f) end)
     (ordering q) (skip q) (take q) (selections q) (includeTotalCount q).

(** [orderBy(name)]: an ascending ordering on [name], after the others. *)
Definition orderBy (name : string) (q : t) : t :=
  mk (table q) (filters q)
     (List.filter (fun o => negb (String.eqb (fst o) name)) (ordering q)
        ++ [(name, true)])
     (skip q) (take q) (selections q) (includeTotalCount q).

Definition skip (count : Z) (q : t) : t :=
  mk (table q) (filters q) (ordering q) (Some count) (take q)
     (selections q) (includeTotalCount q).

Definition take (count : Z) (q : t) : t :=
  mk (table q) (filters q) (ordering q) (Components.skip q) (Some count)
     (selections q) (includeTotalCount q).
End Query.

(** [components.skip + n] and the [$skip] that is sent: [null] counts as 0. *)
Definition offset (q : Query.t) : Z :=
  match Components.skip q with None => 0 | Some n => n end.

(** Truthiness of a component that is [null] or a number. *)
Definition truthy_num (v : option Z) : bool :=
  match v with None => false | Some n => negb (n =? 0) end.

(** Truthiness of a value that is [null] or a string. *)
Definition truthy_str (v : option string) : bool :=
  match v with None => false | Some s => negb (String.eqb s EmptyString) end.

(** ** Errors thrown by pull.js *)

Inductive Error : Type :=
| OrderByNotSupported
| SkipNotSupported
| TakeNotSupported
| SelectNotSupported
| IncludeTotalCountNotSupported
| InvalidPageSize
| InvalidRecordId
| DeletedPropertyMissing
| PulledRecordsNull
| LastRecordNull
| UpdatedAtNotADate.

(** How a promise settles; [Unsettled] is the model running out of fuel. *)
Inductive Outcome (A : Type) : Type :=
| Fulfilled (a : A)
| Rejected (e : Error)
| Unsettled.
Arguments Fulfilled {A} a.
Arguments Rejected {A} e.
Arguments Unsettled {A}.

(** ** The calls issued to the collaborators *)

Record PulltimeRow : Type := mkRow {
  row_id : string;
  row_tableName : string;
  row_value : Z
}.

(** A call, with the answer it got. *)
Inductive Event : Type :=
| TableRead (q : Query.t) (result : list PulledRecord.t)
| ReadPendingOperations (tableName : string) (recordId : JsValue)
    (pendingOperations : list PendingOperation)
| ReadPagePendingOperations (tableName : string) (records : list PulledRecord.t)
    (pendingOperations : list PendingOperation)
| StoreDel (tableName : string) (ids : list JsValue)
| StoreUpsert (tableName : string) (records : list PulledRecord.t)
(* store.lookup(pulltimeTableName, queryId, true) *)
| PulltimeLookup (queryId : string) (result : option PulltimeRow)
(* store.upsert(pulltimeTableName, row) *)
| PulltimeUpsert (row : PulltimeRow).

(** What the collaborators answer, given the calls made so far. *)
Record Collaborators : Type := {
  table_read : list Event -> Query.t -> list PulledRecord.t;
  pendingOperationsOf : list Event -> string -> JsValue -> list PendingOperation;
  pagePendingOperationsOf :
    list Event -> string -> list PulledRecord.t -> list PendingOperation;
  (* Date.prototype.getTimezoneOffset at the date built by Date(1970, 0, 0),
     in minutes, UTC minus local time *)
  timezoneOffset : Z
}.

(** ** State of the pull manager *)

Record PullManager : Type := mkPM {
  pageSize : Z;
  lastKnownUpdatedAt : Z;
  tablePullQuery : Query.t;
  pagePullQuery : Query.t;
  pullQueryId : option string;
  (* the rows of the pulltime table of the local store, by id *)
  pulltime : gmap string PulltimeRow;
  (* the calls issued so far, oldest first *)
  calls : list Event
}.

Definition M (A : Type) : Type := PullManager -> Outcome A * PullManager.

Definition ret {A} (a : A) : M A := fun s => (Fulfilled a, s).
Definition throw {A} (e : Error) : M A := fun s => (Rejected e, s).
Definition bind {A B} (c : M A) (k : A -> M B) : M B :=
  fun s =>
    match c s with
    | (Fulfilled a, s') => k a s'
    | (Rejected e, s') => (Rejected e, s')
    | (Unsettled, s') => (Unsettled, s')
    end.

Notation "x <- c ;; k" := (bind c (fun x => k))
  (at level 100, c at next level, right associativity).
Notation "c ;;; k" := (bind c (fun _ => k))
  (at level 100, right associativity).

Definition lift {A} (o : Outcome A) : M A := fun s => (o, s).
Definition gets {A} (f : PullManager -> A) : M A := fun s => (Fulfilled (f s), s).

Definition log (e : Event) : M unit :=
  fun s => (Fulfilled tt,
            mkPM (pageSize s) (lastKnownUpdatedAt s) (tablePullQuery s)
                 (pagePullQuery s) (pullQueryId s) (pulltime s) (calls s ++ [e])).

Definition set_pagePullQuery (q : Query.t) : M unit :=
  fun s => (Fulfilled tt,
            mkPM (pageSize s) (lastKnownUpdatedAt s) (tablePullQuery s)
                 q (pullQueryId s) (pulltime s) (calls s)).

Definition set_lastKnownUpdatedAt (t : Z) : M unit :=
  fun s => (Fulfilled tt,
            mkPM (pageSize s) t (tablePullQuery s)
                 (pagePullQuery s) (pullQueryId s) (pulltime s) (calls s)).

(** ** validateQuery (pull.js 323-348) *)

Definition validateQuery (query : Query.t) : Outcome unit :=
  let components := Query.getComponents query in
  match Components.ordering components with
  | _ :: _ => Rejected OrderByNotSupported
  | [] =>
    if truthy_num (Components.skip components) then Rejected SkipNotSupported
    else if truthy_num (Components.take components) then Rejected TakeNotSupported
    else if negb (length (Components.selections components) =? 0)%nat
      then Rejected SelectNotSupported
    else if Components.includeTotalCount components
      then Rejected IncludeTotalCountNotSupported
    else Fulfilled tt
  end.

(** ** copyQuery (pull.js 351-357) *)

Definition copyQuery (query : Query.t) : Query.t :=
  let components := Query.getComponents query in
  Query.setComponents components.

Definition set_pageSize (n : Z) : M unit :=
  fun s => (Fulfilled tt,
            mkPM n (lastKnownUpdatedAt s) (tablePullQuery s)
                 (pagePullQuery s) (pullQueryId s) (pulltime s) (calls s)).

Definition set_tablePullQuery (q : Query.t) : M unit :=
  fun s => (Fulfilled tt,
            mkPM (pageSize s) (lastKnownUpdatedAt s) q
                 (pagePullQuery s) (pullQueryId s) (pulltime s) (calls s)).

Definition set_pullQueryId (i : option string) : M unit :=
  fun s => (Fulfilled tt,
            mkPM (pageSize s) (lastKnownUpdatedAt s) (tablePullQuery s)
                 (pagePullQuery s) i (pulltime s) (calls s)).

Definition set_pulltime (m : gmap string PulltimeRow) : M unit :=
  fun s => (Fulfilled tt,
            mkPM (pageSize s) (lastKnownUpdatedAt s) (tablePullQuery s)
                 (pagePullQuery s) (pullQueryId s) m (calls s)).

(** The settings object of [pull]: only [pageSize] is read. *)
Record Settings : Type := { settings_pageSize : JsValue }.

(** The smallest time value a Date can hold (ECMAScript time range). *)
Definition minTimeValue : Z := -8640000000000000.

(** Time value of [new Date(1970, 0, 0)]: day 0 of January 1970 is the 31st
    of December 1969, at midnight in local time; [tz] is the timezone offset
    in minutes. *)
Definition Date_1970_0_0 (tz : Z) : Z := -86400000 + tz * 60000.

Section PullManager.

Variable env : Collaborators.

(** *** The collaborators *)

(** [mobileServiceTable.read(queryString, params)]; the query string is
    the OData form of the page query, which stands for it here. *)
Definition mobileServiceTable_read (q : Query.t) : M (list PulledRecord.t) :=
  history <- gets calls ;;
  let result := table_read env history q in
  log (TableRead q result) ;;;
  ret result.

Definition readPendingOperations (tableName : string) (recordId : JsValue)
  : M (list PendingOperation) :=
  history <- gets calls ;;
  let pendingOperations := pendingOperationsOf env history tableName recordId in
  log (ReadPendingOperations tableName recordId pendingOperations) ;;;
  ret pendingOperations.

Definition readPagePendingOperations (tableName : string)
    (records : list PulledRecord.t) : M (list PendingOperation) :=
  history <- gets calls ;;
  let pendingOperations := pagePendingOperationsOf env history tableName records in
  log (ReadPagePendingOperations tableName records pendingOperations) ;;;
  ret pendingOperations.

Definition store_del (tableName : string) (ids : list JsValue) : M unit :=
  log (StoreDel tableName ids).

Definition store_upsert (tableName : string) (records : list PulledRecord.t)
  : M unit :=
  log (StoreUpsert tableName records).

(** [store.lookup(pulltimeTableName, id, true)]: the row, or undefined. *)
Definition store_lookup_pulltime (queryId : string) : M (option PulltimeRow) :=
  rows <- gets pulltime ;;
  let result := rows !! queryId in
  log (PulltimeLookup queryId result) ;;;
  ret result.

(** [store.upsert(pulltimeTableName, row)], keyed by the id of the row. *)
Definition store_upsert_pulltime (row : PulltimeRow) : M unit :=
  log (PulltimeUpsert row) ;;;
  rows <- gets pulltime ;;
  set_pulltime (<[row_id row := row]> rows).

(** *** buildQueryFromLastKnownUpdateAt (pull.js 292-306) *)

Definition buildQueryFromLastKnownUpdateAt (updatedAt : Z) : M unit :=
  set_lastKnownUpdatedAt updatedAt ;;;
  tablePullQuery <- gets tablePullQuery ;;
  pageSize <- gets pageSize ;;
  set_pagePullQuery
    (Query.take pageSize
       (Query.orderBy updatedAtColumnName
          (Query.where_ (FUpdatedAtGe updatedAt) (copyQuery tablePullQuery)))).

(** *** getLastKnownUpdatedAt (pull.js 240-258) *)

Definition getLastKnownUpdatedAt : M Z :=
  pullQueryId <- gets pullQueryId ;;
  result <- match pullQueryId with
            | Some queryId =>
                if truthy_str (Some queryId) then store_lookup_pulltime queryId
                else ret None
            | None => ret None
            end ;;
  match result with
  | Some row => ret (row_value row)
  | None => ret (Date_1970_0_0 (timezoneOffset env))
  end.

(** *** setupQuery (pull.js 99-103) *)

Definition setupQuery : M unit :=
  updatedAt <- getLastKnownUpdatedAt ;;
  buildQueryFromLastKnownUpdateAt updatedAt.

(** *** onPagePulled (pull.js 309-319) *)

Definition onPagePulled : M unit :=
  pullQueryId <- gets pullQueryId ;;
  match pullQueryId with
  | Some queryId =>
      if truthy_str (Some queryId) then
        pagePullQuery <- gets pagePullQuery ;;
        lastKnownUpdatedAt <- gets lastKnownUpdatedAt ;;
        store_upsert_pulltime
          (mkRow queryId
                 (Components.table (Query.getComponents pagePullQuery))
                 lastKnownUpdatedAt)
      else ret tt
  | None => ret tt
  end.

(** *** processSingleRecord (pull.js 193-212); no longer called *)

Definition processSingleRecord (tableName : string) (record : PulledRecord.t)
    (idsToDelete : list JsValue) (recordsToUpdate : list PulledRecord.t)
  : M (list JsValue * list PulledRecord.t) :=
  pendingOperations <- readPendingOperations tableName (PulledRecord.id record) ;;
  if negb (isValidId (PulledRecord.id record)) then throw InvalidRecordId
  else if (length pendingOperations =? 0)%nat then
    match PulledRecord.deleted record with
    | JBool true => ret (idsToDelete ++ [PulledRecord.id record], recordsToUpdate)
    | JBool false => ret (idsToDelete, recordsToUpdate ++ [record])
    | _ => throw DeletedPropertyMissing
    end
  else ret (idsToDelete, recordsToUpdate).

(** *** processAllRecords (pull.js 214-235) *)

(** The [for] loop over the records; the two arrays are pushed to. *)
Fixpoint processAllRecords_loop (pendingOperations : list PendingOperation)
    (records : list PulledRecord.t)
    (idsToDelete : list JsValue) (recordsToUpdate : list PulledRecord.t)
  : Outcome (list JsValue * list PulledRecord.t) :=
  match records with
  | [] => Fulfilled (idsToDelete, recordsToUpdate)
  | record :: rest =>
      if (length pendingOperations =? 0)%nat then
        match PulledRecord.deleted record with
        | JBool true =>
            processAllRecords_loop pendingOperations rest
              (idsToDelete ++ [PulledRecord.id record]) recordsToUpdate
        | JBool false =>
            processAllRecords_loop pendingOperations rest
              idsToDelete (recordsToUpdate ++ [record])
        | _ => Rejected DeletedPropertyMissing
        end
      else processAllRecords_loop pendingOperations rest idsToDelete recordsToUpdate
  end.

Definition processAllRecords (tableName : string) (records : list PulledRecord.t)
    (idsToDelete : list JsValue) (recordsToUpdate : list PulledRecord.t)
  : M (list JsValue * list PulledRecord.t) :=
  pendingOperations <- readPagePendingOperations tableName records ;;
  lift (processAllRecords_loop pendingOperations records idsToDelete recordsToUpdate).

(** *** processPulledRecords (pull.js 159-191) *)

(** What the remote table answers is an array here, so the wrapping of a
    single record into an array is not needed. *)
Definition processPulledRecords (tableName : string)
    (pulledRecords : list PulledRecord.t) : M unit :=
  batches <- processAllRecords tableName pulledRecords [] [] ;;
  let idsToDelete := fst batches in
  let recordsToUpdate := snd batches in
  store_del tableName idsToDelete ;;;
  store_upsert tableName recordsToUpdate.

(** *** pullPage (pull.js 131-155) *)

Definition pullPage : M (list PulledRecord.t) :=
  pagePullQuery <- gets pagePullQuery ;;
  let tableName := Components.table (Query.getComponents pagePullQuery) in
  pulledRecords <- mobileServiceTable_read pagePullQuery ;;
  processPulledRecords tableName pulledRecords ;;;
  onPagePulled ;;;
  ret pulledRecords.

(** *** isPullComplete (pull.js 123-128) *)

Definition isPullComplete (pulledRecords : list PulledRecord.t) : bool :=
  (length pulledRecords =? 0)%nat.

(** *** updateQueryForNextPage (pull.js 261-288) *)

Definition updateQueryForNextPage (pulledRecords : list PulledRecord.t) : M unit :=
  (* an array is never falsy: the first throw cannot happen *)
  match last pulledRecords with
  | None => throw LastRecordNull
  | Some lastRecord =>
      match PulledRecord.updatedAt lastRecord with
      | JDate lastRecordTime =>
          lastKnownUpdatedAt <- gets lastKnownUpdatedAt ;;
          if lastRecordTime =? lastKnownUpdatedAt then
            pagePullQuery <- gets pagePullQuery ;;
            set_pagePullQuery
              (Query.skip (offset (Query.getComponents pagePullQuery)
                           + Z.of_nat (length pulledRecords))
                          pagePullQuery)
          else buildQueryFromLastKnownUpdateAt lastRecordTime
      | _ => throw UpdatedAtNotADate
      end
  end.

(** *** pullAllPages (pull.js 106-120) *)

Fixpoint pullAllPages (fuel : nat) : M unit :=
  match fuel with
  | O => lift Unsettled
  | S fuel' =>
      pulledRecords <- pullPage ;;
      if negb (isPullComplete pulledRecords) then
        updateQueryForNextPage pulledRecords ;;;
        pullAllPages fuel'
      else ret tt
  end.

(** *** pull (pull.js 66-96) *)

(** [client.getTable] and the features set on the table are left out: what
    the table answers is given by the collaborators. *)

(** The page size that [pull] takes from its settings (pull.js 75-82). *)
Definition pageSizeOf (settings : option Settings) : Outcome Z :=
  let settings :=
    match settings with
    | Some s => s
    | None => {| settings_pageSize := JUndefined |}
    end in
  match settings_pageSize settings with
  | JUndefined | JNull => Fulfilled defaultPageSize
  | JNum n => if 0 <? n then Fulfilled n else Rejected InvalidPageSize
  | _ => Rejected InvalidPageSize
  end.

Definition pull (fuel : nat) (query : Query.t) (queryId : option string)
    (settings : option Settings) : M unit :=
  lift (validateQuery query) ;;;
  (* queryId is a string or null, settings an object or null: by typing *)
  size <- lift (pageSizeOf settings) ;;
  set_pageSize size ;;;
  set_tablePullQuery (copyQuery query) ;;;
  set_pullQueryId queryId ;;;
  setupQuery ;;;
  pullAllPages fuel.

End PullManager.

(** * Vocabulary of the statements *)

(** ** Calls and pages *)

(** The pages answered by the remote table, in the order of the fetches. *)
Fixpoint fetchedPages (evs : list Event) : list (list PulledRecord.t) :=
  match evs with
  | [] => []
  | TableRead _ result :: rest => result :: fetchedPages rest
  | _ :: rest => fetchedPages rest
  end.

Definition isCheckpointAccess (e : Event) : bool :=
  match e with PulltimeUpsert _ | PulltimeLookup _ _ => true | _ => false end.

Definition isStoreMutation (e : Event) : bool :=
  match e with
  | StoreDel _ _ | StoreUpsert _ _ | PulltimeUpsert _ => true
  | _ => false
  end.

(** Every fetch is followed by an upsert of the pulltime row before the next
    fetch and before the end of the log; [awaiting] tells that a fetch has
    not been followed by its upsert yet. *)
Fixpoint everyFetchCheckpointed (awaiting : bool) (evs : list Event) : bool :=
  match evs with
  | [] => negb awaiting
  | TableRead _ _ :: rest => negb awaiting && everyFetchCheckpointed true rest
  | PulltimeUpsert _ :: rest => everyFetchCheckpointed false rest
  | _ :: rest => everyFetchCheckpointed awaiting rest
  end.

(** ** Records and queries *)

(** [record.deleted === b] *)
Definition deletedIs (b : bool) (record : PulledRecord.t) : bool :=
  match PulledRecord.deleted record with
  | JBool b' => Bool.eqb b b'
  | _ => false
  end.

Definition hasDeletedFlag (record : PulledRecord.t) : bool :=
  match PulledRecord.deleted record with JBool _ => true | _ => false end.

(** The query shapes that the pull does not support. *)
Definition usesUnsupportedOperation (query : Query.t) : bool :=
  negb (length (Components.ordering query) =? 0)%nat
  || truthy_num (Components.skip query)
  || truthy_num (Components.take query)
  || negb (length (Components.selections query) =? 0)%nat
  || Components.includeTotalCount query.

Definition isValidationError (e : Error) : bool :=
  match e with
  | OrderByNotSupported | SkipNotSupported | TakeNotSupported
  | SelectNotSupported | IncludeTotalCountNotSupported => true
  | _ => false
  end.

(** [record.updatedAt >= since], for a record whose updatedAt is a date. *)
Definition updatedAtGe (since : Z) (record : PulledRecord.t) : bool :=
  match PulledRecord.updatedAt record with
  | JDate t => since <=? t
  | _ => false
  end.

(** Whether a record passes a filter; [holds] gives the meaning of the filter
    expressions of the caller. *)
Fixpoint satisfies (holds : string -> PulledRecord.t -> bool) (f : Filter)
    (record : PulledRecord.t) : bool :=
  match f with
  | FExpr odata => holds odata record
  | FUpdatedAtGe since => updatedAtGe since record
  | FAnd l r => satisfies holds l record && satisfies holds r record
  end.

Definition satisfiesQuery (holds : string -> PulledRecord.t -> bool)
    (q : Query.t) (record : PulledRecord.t) : bool :=
  match Components.filters q with
  | None => true
  | Some f => satisfies holds f record
  end.

(** The remote table only answers with records that pass the filter of the
    query it is asked. *)
Definition respectsFilter (holds : string -> PulledRecord.t -> bool)
    (env : Collaborators) : Prop :=
  forall history q record,
    In record (table_read env history q) -> satisfiesQuery holds q record = true.

(** ** The states that the steps leave and the calls they issue *)

(** The state with more calls in its log and nothing else changed. *)
Definition after_calls (s : PullManager) (evs : list Event) : PullManager :=
  mkPM (pageSize s) (lastKnownUpdatedAt s) (tablePullQuery s) (pagePullQuery s)
       (pullQueryId s) (pulltime s) (calls s ++ evs).

(** The row that [onPagePulled] writes in state [s] for the identity [i]. *)
Definition checkpointRow (s : PullManager) (i : string) : PulltimeRow :=
  mkRow i (Components.table (pagePullQuery s)) (lastKnownUpdatedAt s).

(** The state after [onPagePulled] has written its row. *)
Definition after_checkpoint (s : PullManager) (i : string) : PullManager :=
  mkPM (pageSize s) (lastKnownUpdatedAt s) (tablePullQuery s) (pagePullQuery s)
       (pullQueryId s) (<[i := checkpointRow s i]> (pulltime s))
       (calls s ++ [PulltimeUpsert (checkpointRow s i)]).

(** The state that [onPagePulled] leaves. *)
Definition after_onPagePulled (s : PullManager) : PullManager :=
  match pullQueryId s with
  | Some i => if truthy_str (Some i) then after_checkpoint s i else s
  | None => s
  end.

(** The calls that [onPagePulled] issues in state [s]. *)
Definition checkpointCalls (s : PullManager) : list Event :=
  match pullQueryId s with
  | Some i => if truthy_str (Some i) then [PulltimeUpsert (checkpointRow s i)] else []
  | None => []
  end.

(** The page that the next fetch gets in state [s], and what the operation
    table answers about it. *)
Definition nextPage (env : Collaborators) (s : PullManager)
  : list PulledRecord.t :=
  table_read env (calls s) (pagePullQuery s).

Definition nextPending (env : Collaborators) (s : PullManager)
  : list PendingOperation :=
  pagePendingOperationsOf env
    (calls s ++ [TableRead (pagePullQuery s) (nextPage env s)])
    (Components.table (pagePullQuery s)) (nextPage env s).

(** The calls of [pullPage] up to the classification of the records. *)
Definition fetchCalls (env : Collaborators) (s : PullManager) : list Event :=
  [TableRead (pagePullQuery s) (nextPage env s);
   ReadPagePendingOperations (Components.table (pagePullQuery s))
     (nextPage env s) (nextPending env s)].

Definition applyCalls (s : PullManager)
    (batches : list JsValue * list PulledRecord.t) : list Event :=
  [StoreDel (Components.table (pagePullQuery s)) (fst batches);
   StoreUpsert (Components.table (pagePullQuery s)) (snd batches)].

(** The page query built for the cursor [updatedAt]. *)
Definition pageQueryFor (tableQuery : Query.t) (size updatedAt : Z) : Query.t :=
  Query.take size
    (Query.orderBy updatedAtColumnName
       (Query.where_ (FUpdatedAtGe updatedAt) (copyQuery tableQuery))).

(** The date that [getLastKnownUpdatedAt] yields in state [s]. *)
Definition loadedCursor (env : Collaborators) (s : PullManager) : Z :=
  match pullQueryId s with
  | Some i =>
      if truthy_str (Some i) then
        match pulltime s !! i with
        | Some row => row_value row
        | None => Date_1970_0_0 (timezoneOffset env)
        end
      else Date_1970_0_0 (timezoneOffset env)
  | None => Date_1970_0_0 (timezoneOffset env)
  end.

(** The calls that [getLastKnownUpdatedAt] issues in state [s]. *)
Definition loadCalls (s : PullManager) : list Event :=
  match pullQueryId s with
  | Some i => if truthy_str (Some i) then [PulltimeLookup i (pulltime s !! i)] else []
  | None => []
  end.

(** The state in which [pull] enters the loop. *)
Definition startState (env : Collaborators) (query : Query.t)
    (queryId : option string) (size : Z) (s : PullManager) : PullManager :=
  snd (setupQuery env
         (mkPM size (lastKnownUpdatedAt s) (copyQuery query) (pagePullQuery s)
               queryId (pulltime s) (calls s))).

(** The filter of the page query asks for records at or after the cursor. *)
Definition filtersByCursor (holds : string -> PulledRecord.t -> bool)
    (s : PullManager) : Prop :=
  forall record,
    satisfiesQuery holds (pagePullQuery s) record = true ->
    updatedAtGe (lastKnownUpdatedAt s) record = true.

(** ** Sample collaborators and states, for the concrete runs *)

(** A remote table that answers its n-th read with the n-th page of a script
    (and with an empty page after the script), an operation table that
    always answers [pending]. *)
Definition scriptedEnv (pages : list (list PulledRecord.t))
    (pending : list PendingOperation) (tz : Z) : Collaborators :=
  {| table_read := fun history _ => nth (length (fetchedPages history)) pages [];
     pendingOperationsOf := fun _ _ _ => pending;
     pagePendingOperationsOf := fun _ _ _ => pending;
     timezoneOffset := tz |}.

(** A remote table holding [rows], ordered by updatedAt: it answers a query
    with the rows that pass its filter, after its skip, up to its take. *)
Definition tableServer (rows : list PulledRecord.t) (tz : Z) : Collaborators :=
  {| table_read := fun _ q =>
       let matching := List.filter (satisfiesQuery (fun _ _ => true) q) rows in
       let rest := drop (Z.to_nat (offset q)) matching in
       match Components.take q with
       | Some n => take (Z.to_nat n) rest
       | None => rest
       end;
     pendingOperationsOf := fun _ _ _ => [];
     pagePendingOperationsOf := fun _ _ _ => [];
     timezoneOffset := tz |}.

Definition todoQuery : Query.t :=
  Components.mk "todo" None [] None None [] false.

(** A pull manager whose page query is [todoQuery], with an empty store and
    an empty log. *)
Definition idleManager : PullManager :=
  mkPM defaultPageSize 0 todoQuery todoQuery None ∅ [].

(** A pull manager set up for the incremental pull "q", over a pulltime table
    with the given rows. *)
Definition incrementalManager (rows : gmap string PulltimeRow) : PullManager :=
  mkPM defaultPageSize 0 todoQuery todoQuery (Some "q"%string) rows [].

Definition rowOfQ (value : Z) : PulltimeRow := mkRow "q" "todo" value.

Definition someOperation : PendingOperation :=
  {| operationId := 1; itemId := JStr "a" |}.

Definition liveRecord (i t : Z) : PulledRecord.t :=
  PulledRecord.mk (JNum i) (JBool false) (JDate t).

Definition deletedRecord (i t : Z) : PulledRecord.t :=
  PulledRecord.mk (JNum i) (JBool true) (JDate t).

Definition unflaggedRecord (i t : Z) : PulledRecord.t :=
  PulledRecord.mk (JNum i) JUndefined (JDate t).

Definition recordWithoutId (t : Z) : PulledRecord.t :=
  PulledRecord.mk JUndefined (JBool false) (JDate t).

(** A remote table with three records: a full page of two records sharing a
    date, then an under-sized page of one record, then nothing. *)
Definition threeRecordsEnv : Collaborators :=
  scriptedEnv [[liveRecord 1 10; liveRecord 2 10]; [liveRecord 3 20]] [] 0.

Definition threeRows : list PulledRecord.t :=
  [liveRecord 1 10; liveRecord 2 10; liveRecord 3 20].

Definition pagesOfTwo : option Settings := Some {| settings_pageSize := JNum 2 |}.

(** ** Shape of the page queries and course of the cursor *)

(** The queries of the fetches, in the order of the fetches. *)
Fixpoint fetchQueries (evs : list Event) : list Query.t :=
  match evs with
  | [] => []
  | TableRead q _ :: rest => q :: fetchQueries rest
  | _ :: rest => fetchQueries rest
  end.

(** A query with another skip. *)
Definition withSkip (k : option Z) (q : Query.t) : Query.t :=
  Components.mk (Components.table q) (Components.filters q)
                (Components.ordering q) k (Components.take q)
                (Components.selections q) (Components.includeTotalCount q).

(** The page query is the one built from the table query for the cursor, up
    to its skip, and its skip is not negative. *)
Definition tracksCursor (s : PullManager) : Prop :=
  exists k,
    pagePullQuery s
      = withSkip k (pageQueryFor (tablePullQuery s) (pageSize s)
                                 (lastKnownUpdatedAt s)) /\
    0 <= match k with None => 0 | Some n => n end.

(** The filter of a page query of [query] for the cursor [cursor]. *)
Definition pageFilter (query : Query.t) (cursor : Z) : Filter :=
  match Components.filters query with
  | None => FUpdatedAtGe cursor
  | Some f => FAnd f (FUpdatedAtGe cursor)
  end.

(** What a page query of a pull of [query] in pages of [size] looks like. *)
Definition isPageQueryOf (query : Query.t) (size : Z) (q : Query.t) : Prop :=
  Components.table q = Components.table query /\
  (exists cursor, Components.filters q = Some (pageFilter query cursor)) /\
  Components.ordering q = [(updatedAtColumnName, true)] /\
  Components.take q = Some size /\
  0 <= offset q /\
  Components.selections q = [] /\
  Components.includeTotalCount q = false.

(** The cursor after a page: the date of its last record, if it has one. *)
Definition cursorStep (cursor : Z) (page : list PulledRecord.t) : Z :=
  match last page with
  | Some record =>
      match PulledRecord.updatedAt record with
      | JDate t => t
      | _ => cursor
      end
  | None => cursor
  end.

Definition cursorAfter (pages : list (list PulledRecord.t)) (cursor : Z) : Z :=
  fold_left cursorStep pages cursor.

(** ** More samples *)

(** A record to upsert whose updatedAt is missing. *)
Definition undatedRecord (i : Z) : PulledRecord.t :=
  PulledRecord.mk (JNum i) (JBool false) JUndefined.

(** The state in which a pull of [todoQuery] in pages of 50, with the
    identity "q", enters the loop in a timezone at UTC. *)
Definition startedManager : PullManager :=
  mkPM 50 (-86400000) todoQuery (pageQueryFor todoQuery 50 (-86400000))
       (Some "q"%string) ∅ [].

(** ** The log of the pages of a run *)

(** A log made of one block of calls per page: the read, the question to the
    operation table about the records read, [store.del] and [store.upsert]
    with the batches that the classification of these records gives, on the
    table of the query, and the upsert of the pulltime row if there is one. *)
Inductive AppliedPages : list Event -> Prop :=
| applied_none : AppliedPages []
| applied_page q page pending batches checkpoint rest :
    processAllRecords_loop pending page [] [] = Fulfilled batches ->
    (checkpoint = [] \/ exists row, checkpoint = [PulltimeUpsert row]) ->
    AppliedPages rest ->
    AppliedPages
      ([TableRead q page;
        ReadPagePendingOperations (Components.table q) page pending;
        StoreDel (Components.table q) (fst batches);
        StoreUpsert (Components.table q) (snd batches)]
         ++ checkpoint ++ rest).

(** A call that hands no record to the store. *)
Definition appliesNothing (e : Event) : bool :=
  match e with
  | StoreDel _ [] | StoreUpsert _ [] => true
  | StoreDel _ _ | StoreUpsert _ _ => false
  | _ => true
  end.

(** The date that a pull with the identity [queryId] loads from the pulltime
    table [rows] in the timezone [tz]. *)
Definition loadedDate (tz : Z) (rows : gmap string PulltimeRow)
    (queryId : option string) : Z :=
  match queryId with
  | Some i =>
      if truthy_str (Some i) then
        match rows !! i with
        | Some row => row_value row
        | None => Date_1970_0_0 tz
        end
      else Date_1970_0_0 tz
  | None => Date_1970_0_0 tz
  end.

(** ** A remote table that does not change during the pull *)

(** What a remote table holding [rows] answers to a query: the rows that
    pass the filter, after the skip, up to the take. *)
Definition answerOf (holds : string -> PulledRecord.t -> bool)
    (rows : list PulledRecord.t) (q : Query.t) : list PulledRecord.t :=
  let matching := List.filter (satisfiesQuery holds q) rows in
  let rest := drop (Z.to_nat (offset q)) matching in
  match Components.take q with
  | Some n => take (Z.to_nat n) rest
  | None => rest
  end.

Definition servesTable (holds : string -> PulledRecord.t -> bool)
    (rows : list PulledRecord.t) (env : Collaborators) : Prop :=
  forall history q, table_read env history q = answerOf holds rows q.

(** The date of the first record, if both have one, is not after the date
    of the second; rows are held in this order. *)
Definition notLater (r1 r2 : PulledRecord.t) : Prop :=
  forall t1 t2,
    PulledRecord.updatedAt r1 = JDate t1 ->
    PulledRecord.updatedAt r2 = JDate t2 -> t1 <= t2.

(** The rows for the page query of [s] that its skip has not passed. *)
Definition remainingRows (holds : string -> PulledRecord.t -> bool)
    (rows : list PulledRecord.t) (s : PullManager) : list PulledRecord.t :=
  drop (Z.to_nat (offset (pagePullQuery s)))
       (List.filter (satisfiesQuery holds (pagePullQuery s)) rows).

(** The operation table has no pending operation for any page. *)
Definition nothingPending (env : Collaborators) : Prop :=
  forall history tableName records,
    pagePendingOperationsOf env history tableName records = [].

(** A call that is not a question to the operation table answered with
    pending operations. *)
Definition findsNothingPending (e : Event) : bool :=
  match e with
  | ReadPagePendingOperations _ _ (_ :: _) => false
  | _ => true
  end.

(** Four rows: the record 3 is deleted, all others are live; the records 1
    and 2 share a date. *)
Definition fourRows : list PulledRecord.t :=
  [liveRecord 1 10; liveRecord 2 10; deletedRecord 3 20; liveRecord 4 30].

(** ** How far a pull of a table that does not change is from its end *)



(** ** The query string that pullPage sends (pull.js 142-144) *)

(** A string without its first [n] characters. *)
Fixpoint dropString (n : nat) (s : string) : string :=
  match n, s with
  | O, _ => s
  | S _, EmptyString => EmptyString
  | S n', String _ rest => dropString n' rest
  end.

(** [s.replace(pattern, replacement)] for a pattern that is a string, and a
    replacement without a dollar sign: the first occurrence of the pattern
    is replaced, and only that one. *)
Fixpoint replaceFirst (pattern replacement s : string) : string :=
  if String.prefix pattern s
  then String.append replacement (dropString (String.length pattern) s)
  else match s with
       | EmptyString => EmptyString
       | String c rest => String c (replaceFirst pattern replacement rest)
       end.

(** The second [replace] of pullPage, applied to the OData string of the
    page query once the name of the table is taken off its front. *)
Definition toDateTimeOffset (queryString : string) : string :=
  replaceFirst "datetime'" "datetimeoffset'" queryString.

(** No occurrence of [pattern] in [before ++ rest] starts in [before]. *)
Fixpoint startsNoneIn (pattern before rest : string) : bool :=
  match before with
  | EmptyString => true
  | String _ before' =>
      negb (String.prefix pattern (String.append before rest))
      && startsNoneIn pattern before' rest
  end.

(** [pattern] occurs in [s]. *)
Fixpoint occursIn (pattern s : string) : bool :=
  String.prefix pattern s
  || match s with
     | EmptyString => false
     | String _ rest => occursIn pattern rest
     end.

(** ** Running the monad by hand *)

Ltac run :=
  unfold processPulledRecords, processAllRecords, readPagePendingOperations,
    mobileServiceTable_read, store_del, store_upsert, store_upsert_pulltime,
    store_lookup_pulltime, buildQueryFromLastKnownUpdateAt,
    set_pagePullQuery, set_lastKnownUpdatedAt, set_pulltime, set_pageSize,
    set_tablePullQuery, set_pullQueryId,
    bind, gets, log, lift, ret, throw; simpl.

(** * Properties *)

(** ** The loop over the records of a page *)

Lemma processAllRecords_loop_pending pending records ids recs :
  pending <> [] ->
  processAllRecords_loop pending records ids recs = Fulfilled (ids, recs).
Proof.
  intros Hp. destruct pending as [|op ops]; [congruence|].
  induction records as [|r rest IH]; simpl; auto.
Qed.

Lemma processAllRecords_loop_flags records : forall ids recs,
  forallb hasDeletedFlag records = true ->
  processAllRecords_loop [] records ids recs =
    Fulfilled (ids ++ List.map PulledRecord.id (List.filter (deletedIs true) records),
               recs ++ List.filter (deletedIs false) records).
Proof.
  induction records as [|r rest IH]; intros ids recs Hall; simpl in *.
  - now rewrite !app_nil_r.
  - apply andb_prop in Hall as [Hr Hrest].
    unfold hasDeletedFlag in Hr.
    assert (Ht : deletedIs true r = match PulledRecord.deleted r with
                                    | JBool true => true | _ => false end)
      by (unfold deletedIs; now destruct (PulledRecord.deleted r) as [| |[|]| | | |]).
    assert (Hf : deletedIs false r = match PulledRecord.deleted r with
                                     | JBool false => true | _ => false end)
      by (unfold deletedIs; now destruct (PulledRecord.deleted r) as [| |[|]| | | |]).
    rewrite Ht, Hf.
    destruct (PulledRecord.deleted r) as [| |[|]| | | |]; try discriminate;
      rewrite IH by assumption; simpl; now rewrite <- app_assoc.
Qed.

Lemma processAllRecords_loop_missing records : forall ids recs,
  forallb hasDeletedFlag records = false ->
  processAllRecords_loop [] records ids recs = Rejected DeletedPropertyMissing.
Proof.
  induction records as [|r rest IH]; intros ids recs Hall; simpl in *.
  - discriminate.
  - unfold hasDeletedFlag in Hall at 1.
    destruct (PulledRecord.deleted r) as [| |[|]| | | |]; simpl in Hall;
      try reflexivity; now apply IH.
Qed.

Lemma processAllRecords_loop_settles pending records ids recs :
  processAllRecords_loop pending records ids recs <> Unsettled.
Proof.
  destruct pending as [|op ops].
  - destruct (forallb hasDeletedFlag records) eqn:E.
    + now rewrite processAllRecords_loop_flags.
    + now rewrite processAllRecords_loop_missing.
  - now rewrite processAllRecords_loop_pending.
Qed.

(** ** What one run of each step does to the state *)

Section Runs.

Variable env : Collaborators.

Lemma processPulledRecords_eq tableName page s :
  processPulledRecords env tableName page s =
  let pending := pagePendingOperationsOf env (calls s) tableName page in
  let asked := ReadPagePendingOperations tableName page pending in
  match processAllRecords_loop pending page [] [] with
  | Fulfilled batches =>
      (Fulfilled tt,
       after_calls s [asked; StoreDel tableName (fst batches);
                      StoreUpsert tableName (snd batches)])
  | Rejected e => (Rejected e, after_calls s [asked])
  | Unsettled => (Unsettled, after_calls s [asked])
  end.
Proof.
  run. destruct (processAllRecords_loop _ page [] []) as [[ids recs]|e|];
    unfold after_calls; simpl; rewrite <- ?app_assoc; reflexivity.
Qed.

Lemma onPagePulled_eq s :
  onPagePulled s = (Fulfilled tt, after_onPagePulled s).
Proof.
  unfold onPagePulled, after_onPagePulled, after_checkpoint, checkpointRow.
  run. destruct s as [ps cur tq pq [i|] rows cs]; simpl; [|reflexivity].
  destruct (String.eqb i EmptyString); reflexivity.
Qed.

Lemma pullPage_eq s :
  pullPage env s =
  let q := pagePullQuery s in
  let tableName := Components.table q in
  let page := table_read env (calls s) q in
  let s1 := after_calls s [TableRead q page] in
  match processPulledRecords env tableName page s1 with
  | (Fulfilled _, s2) => (Fulfilled page, after_onPagePulled s2)
  | (Rejected e, s2) => (Rejected e, s2)
  | (Unsettled, s2) => (Unsettled, s2)
  end.
Proof.
  unfold pullPage. unfold bind at 1. unfold gets at 1.
  unfold bind at 1. unfold mobileServiceTable_read.
  unfold bind at 1. unfold gets at 1. unfold bind at 1. unfold log, ret at 1.
  fold (after_calls s [TableRead (pagePullQuery s)
                         (table_read env (calls s) (pagePullQuery s))]).
  simpl. unfold Query.getComponents.
  unfold bind at 1.
  destruct (processPulledRecords env _ _ _) as [[[]|e|] s2]; try reflexivity.
  unfold bind. rewrite onPagePulled_eq. reflexivity.
Qed.

End Runs.

(** ** Reconciliation of a page (processAllRecords, processPulledRecords) *)

Lemma deletedIs_spec b r :
  deletedIs b r = true <-> PulledRecord.deleted r = JBool b.
Proof.
  unfold deletedIs. destruct (PulledRecord.deleted r) as [| |b'| | | |];
    split; intros H; try discriminate.
  - apply Bool.eqb_prop in H. now subst.
  - injection H as <-. apply Bool.eqb_reflx.
Qed.

(** C3. A page is classified as a whole.  The operation table is asked once
    for the page.  When it reports pending operations, both batches stay
    empty and empty batches are handed to the store.  When it reports none
    and every record carries a boolean deleted flag, the delete batch holds
    the ids of exactly the records whose flag is [true], the upsert batch
    holds exactly the records whose flag is [false], both in page order, and
    these are the batches handed to [store.del] and [store.upsert]. *)
Theorem page_is_classified_as_a_whole env tableName page s :
  let pending := pagePendingOperationsOf env (calls s) tableName page in
  let asked := ReadPagePendingOperations tableName page pending in
  (pending <> [] ->
     processAllRecords env tableName page [] [] s
       = (Fulfilled ([], []), after_calls s [asked]) /\
     processPulledRecords env tableName page s
       = (Fulfilled tt,
          after_calls s [asked; StoreDel tableName []; StoreUpsert tableName []]))
  /\
  (pending = [] -> forallb hasDeletedFlag page = true ->
     exists idsToDelete recordsToUpdate,
       processAllRecords env tableName page [] [] s
         = (Fulfilled (idsToDelete, recordsToUpdate), after_calls s [asked]) /\
       processPulledRecords env tableName page s
         = (Fulfilled tt,
            after_calls s [asked; StoreDel tableName idsToDelete;
                           StoreUpsert tableName recordsToUpdate]) /\
       idsToDelete = List.map PulledRecord.id (List.filter (deletedIs true) page) /\
       recordsToUpdate = List.filter (deletedIs false) page /\
       (forall i, In i idsToDelete <->
          exists r, In r page /\ PulledRecord.deleted r = JBool true
                    /\ PulledRecord.id r = i) /\
       (forall r, In r recordsToUpdate <->
          In r page /\ PulledRecord.deleted r = JBool false)).
Proof.
  cbv zeta. split.
  - intros Hp. rewrite processPulledRecords_eq. cbv zeta.
    unfold processAllRecords. run.
    rewrite processAllRecords_loop_pending by assumption. split; reflexivity.
  - intros Hp Hflags. rewrite processPulledRecords_eq. cbv zeta.
    unfold processAllRecords. run. rewrite Hp.
    rewrite processAllRecords_loop_flags by assumption. simpl.
    eexists _, _. do 4 (split; [reflexivity|]). split.
    + intros i. rewrite in_map_iff. split.
      * intros (r & Hid & Hr). apply filter_In in Hr as [Hr Hd].
        apply deletedIs_spec in Hd. eauto.
      * intros (r & Hr & Hd & Hid). exists r. split; [assumption|].
        apply filter_In. split; [assumption|]. now apply deletedIs_spec.
    + intros r. rewrite filter_In, deletedIs_spec. reflexivity.
Qed.

(** C4. With no pending operations, one record whose deleted flag is not a
    boolean rejects the processing of the page; only the question to the
    operation table has been issued by then, so neither [store.del] nor
    [store.upsert] is called, no pulltime row is written, and [pullPage]
    rejects with the same error before [onPagePulled]. *)
Theorem missing_deleted_flag_fails_the_page env s :
  let q := pagePullQuery s in
  let tableName := Components.table q in
  let page := table_read env (calls s) q in
  let s1 := after_calls s [TableRead q page] in
  pagePendingOperationsOf env (calls s1) tableName page = [] ->
  (exists r, In r page /\ hasDeletedFlag r = false) ->
  processPulledRecords env tableName page s1
    = (Rejected DeletedPropertyMissing,
       after_calls s1 [ReadPagePendingOperations tableName page []]) /\
  pullPage env s
    = (Rejected DeletedPropertyMissing,
       after_calls s [TableRead q page;
                      ReadPagePendingOperations tableName page []]) /\
  pulltime (snd (pullPage env s)) = pulltime s /\
  Forall (fun e => isStoreMutation e = false)
         (drop (length (calls s)) (calls (snd (pullPage env s)))).
Proof.
  cbv zeta. intros Hp (r & Hr & Hflag).
  assert (Hall : forallb hasDeletedFlag (table_read env (calls s) (pagePullQuery s))
                 = false).
  { apply not_true_is_false. intros Hall.
    rewrite forallb_forall in Hall. apply Hall in Hr. congruence. }
  assert (Hproc : processPulledRecords env (Components.table (pagePullQuery s))
             (table_read env (calls s) (pagePullQuery s))
             (after_calls s [TableRead (pagePullQuery s)
                               (table_read env (calls s) (pagePullQuery s))])
           = (Rejected DeletedPropertyMissing,
              after_calls (after_calls s [TableRead (pagePullQuery s)
                               (table_read env (calls s) (pagePullQuery s))])
                [ReadPagePendingOperations (Components.table (pagePullQuery s))
                   (table_read env (calls s) (pagePullQuery s)) []])).
  { rewrite processPulledRecords_eq. cbv zeta. rewrite Hp.
    now rewrite processAllRecords_loop_missing. }
  assert (Hpage : pullPage env s
           = (Rejected DeletedPropertyMissing,
              after_calls s [TableRead (pagePullQuery s)
                               (table_read env (calls s) (pagePullQuery s));
                             ReadPagePendingOperations
                               (Components.table (pagePullQuery s))
                               (table_read env (calls s) (pagePullQuery s)) []])).
  { rewrite pullPage_eq. cbv zeta. rewrite Hproc.
    unfold after_calls. simpl. now rewrite <- app_assoc. }
  split; [exact Hproc|]. split; [exact Hpage|].
  rewrite Hpage. simpl. split; [reflexivity|].
  rewrite drop_app_length. repeat constructor.
Qed.

Lemma page_is_classified_as_a_whole_witness :
  processPulledRecords (scriptedEnv [] [someOperation] 0) "todo"
      [deletedRecord 1 5; liveRecord 2 6] idleManager
    = (Fulfilled tt,
       after_calls idleManager
         [ReadPagePendingOperations "todo" [deletedRecord 1 5; liveRecord 2 6]
            [someOperation];
          StoreDel "todo" []; StoreUpsert "todo" []])
  /\
  processPulledRecords (scriptedEnv [] [] 0) "todo"
      [deletedRecord 1 5; liveRecord 2 6] idleManager
    = (Fulfilled tt,
       after_calls idleManager
         [ReadPagePendingOperations "todo" [deletedRecord 1 5; liveRecord 2 6] [];
          StoreDel "todo" [JNum 1]; StoreUpsert "todo" [liveRecord 2 6]]).
Proof.
  split.
  - apply (proj1 (page_is_classified_as_a_whole
                    (scriptedEnv [] [someOperation] 0) "todo"
                    [deletedRecord 1 5; liveRecord 2 6] idleManager)).
    simpl. discriminate.
  - destruct (proj2 (page_is_classified_as_a_whole
                       (scriptedEnv [] [] 0) "todo"
                       [deletedRecord 1 5; liveRecord 2 6] idleManager)
                eq_refl eq_refl)
      as (ids & recs & _ & Hrun & Hids & Hrecs & _).
    rewrite Hrun, Hids, Hrecs. reflexivity.
Defined.

Lemma missing_deleted_flag_fails_the_page_witness :
  pullPage (scriptedEnv [[liveRecord 1 5; unflaggedRecord 2 6]] [] 0) idleManager
  = (Rejected DeletedPropertyMissing,
     after_calls idleManager
       [TableRead todoQuery [liveRecord 1 5; unflaggedRecord 2 6];
        ReadPagePendingOperations "todo" [liveRecord 1 5; unflaggedRecord 2 6] []]).
Proof.
  apply (missing_deleted_flag_fails_the_page
           (scriptedEnv [[liveRecord 1 5; unflaggedRecord 2 6]] [] 0) idleManager).
  - reflexivity.
  - exists (unflaggedRecord 2 6). split; [simpl; auto | reflexivity].
Defined.

(** ** Record identifiers *)

(** The check of the record id that [processSingleRecord] makes: a record
    without a valid id rejects, whatever the operation table answers. *)
Lemma processSingleRecord_rejects_invalid_id env tableName record ids recs s :
  isValidId (PulledRecord.id record) = false ->
  fst (processSingleRecord env tableName record ids recs s) = Rejected InvalidRecordId.
Proof.
  intros Hid. unfold processSingleRecord, readPendingOperations. run.
  now rewrite Hid.
Qed.

(** C5. [processAllRecords], the path that is called, makes no such check:
    a page holding a record without an id is processed without an error.
    With pending operations only empty batches reach the store; with none,
    the record without an id is handed to [store.upsert] along with the
    others.  [processSingleRecord] rejects the same record. *)
Theorem record_without_id_does_not_fail_the_page :
  let page := [liveRecord 1 5; recordWithoutId 6] in
  isValidId (PulledRecord.id (recordWithoutId 6)) = false /\
  processPulledRecords (scriptedEnv [] [someOperation] 0) "todo" page idleManager
    = (Fulfilled tt,
       after_calls idleManager
         [ReadPagePendingOperations "todo" page [someOperation];
          StoreDel "todo" []; StoreUpsert "todo" []]) /\
  processPulledRecords (scriptedEnv [] [] 0) "todo" page idleManager
    = (Fulfilled tt,
       after_calls idleManager
         [ReadPagePendingOperations "todo" page [];
          StoreDel "todo" []; StoreUpsert "todo" page]) /\
  fst (processSingleRecord (scriptedEnv [] [someOperation] 0) "todo"
         (recordWithoutId 6) [] [] idleManager)
    = Rejected InvalidRecordId.
Proof.
  cbv zeta. repeat split; reflexivity.
Qed.

(** ** Validation of the pull query *)

Lemma validateQuery_cases query :
  if usesUnsupportedOperation query
  then exists e, validateQuery query = Rejected e /\ isValidationError e = true
  else validateQuery query = Fulfilled tt.
Proof.
  unfold usesUnsupportedOperation, validateQuery, Query.getComponents.
  destruct (Components.ordering query) as [|o os]; simpl; [|eauto].
  destruct (truthy_num (Components.skip query)); simpl; [eauto|].
  destruct (truthy_num (Components.take query)); simpl; [eauto|].
  destruct (Components.selections query) as [|x xs]; simpl; [|eauto].
  destruct (Components.includeTotalCount query); simpl; eauto.
Qed.

(** C6. A query with an ordering, a truthy skip, a truthy take, a selection
    or a total-count request rejects [pull] with the error of
    [validateQuery], and the state of the pull manager is the one before the
    call: nothing was read from the remote table, nothing was written to or
    looked up in the store.  A query with none of these passes the
    validation, which yields no value. *)
Theorem unsupported_query_fails_before_any_io env fuel query queryId settings s :
  (usesUnsupportedOperation query = true ->
     exists e, validateQuery query = Rejected e /\ isValidationError e = true /\
               pull env fuel query queryId settings s = (Rejected e, s) /\
               calls (snd (pull env fuel query queryId settings s)) = calls s /\
               pulltime (snd (pull env fuel query queryId settings s)) = pulltime s)
  /\
  (usesUnsupportedOperation query = false -> validateQuery query = Fulfilled tt).
Proof.
  pose proof (validateQuery_cases query) as Hv. split; intros Hu; rewrite Hu in Hv.
  - destruct Hv as (e & He & Hk). exists e.
    assert (Hpull : pull env fuel query queryId settings s = (Rejected e, s)).
    { unfold pull. unfold bind at 1. unfold lift at 1. now rewrite He. }
    rewrite Hpull. auto.
  - exact Hv.
Qed.

Lemma unsupported_query_fails_before_any_io_witness :
  pull (scriptedEnv [[liveRecord 1 5]] [] 0) 3
       (Query.take 10 todoQuery) (Some "q"%string) None idleManager
    = (Rejected TakeNotSupported, idleManager)
  /\ validateQuery todoQuery = Fulfilled tt.
Proof.
  split.
  - destruct (proj1 (unsupported_query_fails_before_any_io
                       (scriptedEnv [[liveRecord 1 5]] [] 0) 3
                       (Query.take 10 todoQuery) (Some "q"%string) None idleManager)
                eq_refl) as (e & He & _ & Hpull & _).
    rewrite Hpull. f_equal. injection He as <-. reflexivity.
  - exact (proj2 (unsupported_query_fails_before_any_io
                    (scriptedEnv [] [] 0) 0 todoQuery None None idleManager)
             eq_refl).
Defined.

(** ** The cursor and the page query *)

(** C1. After a page that is not empty (it has a last record) and whose
    last record carries a date: when that date is the cursor, the cursor stays and the skip of
    the page query grows by the number of records of the page, nothing else
    of the page query changing; otherwise the cursor becomes that date and
    the page query is built again from the table query: no offset, the
    filter of the table query and [updatedAt >= cursor], ascending order on
    [updatedAt], and a take of the page size. *)
Theorem cursor_advance_or_tie_break pulledRecords lastRecord lastRecordTime s :
  last pulledRecords = Some lastRecord ->
  PulledRecord.updatedAt lastRecord = JDate lastRecordTime ->
  validateQuery (tablePullQuery s) = Fulfilled tt ->
  exists s',
    updateQueryForNextPage pulledRecords s = (Fulfilled tt, s') /\
    (lastRecordTime = lastKnownUpdatedAt s ->
       lastKnownUpdatedAt s' = lastKnownUpdatedAt s /\
       pagePullQuery s' =
         Query.skip (offset (pagePullQuery s) + Z.of_nat (length pulledRecords))
                    (pagePullQuery s) /\
       offset (pagePullQuery s') =
         offset (pagePullQuery s) + Z.of_nat (length pulledRecords)) /\
    (lastRecordTime <> lastKnownUpdatedAt s ->
       lastKnownUpdatedAt s' = lastRecordTime /\
       offset (pagePullQuery s') = 0 /\
       Components.filters (pagePullQuery s') =
         Some (match Components.filters (tablePullQuery s) with
               | None => FUpdatedAtGe lastRecordTime
               | Some f => FAnd f (FUpdatedAtGe lastRecordTime)
               end) /\
       Components.ordering (pagePullQuery s') = [(updatedAtColumnName, true)] /\
       Components.take (pagePullQuery s') = Some (pageSize s) /\
       Components.table (pagePullQuery s') = Components.table (tablePullQuery s)).
Proof.
  intros Hlast Hdate Hvalid.
  unfold updateQueryForNextPage. rewrite Hlast, Hdate. run.
  destruct (Z.eqb_spec lastRecordTime (lastKnownUpdatedAt s)) as [Heq|Hne].
  - eexists. split; [reflexivity|]. simpl. split; [|congruence].
    intros _. unfold offset. simpl. auto.
  - eexists. split; [reflexivity|]. simpl. split; [congruence|].
    intros _. unfold validateQuery, Query.getComponents in Hvalid.
    unfold copyQuery, Query.getComponents, Query.setComponents, offset.
    destruct (tablePullQuery s) as [tbl flt ord sk tk sel cnt]; simpl in *.
    destruct ord as [|o os]; [|discriminate].
    destruct sk as [n|]; simpl in *.
    + destruct (Z.eqb_spec n 0) as [->|Hn]; simpl in *; [|discriminate].
      destruct flt; repeat split; reflexivity.
    + destruct flt; repeat split; reflexivity.
Qed.

Lemma cursor_advance_or_tie_break_witness :
  (* the last record sits on the cursor: tie-break by offset *)
  (exists s',
     updateQueryForNextPage [liveRecord 1 0; liveRecord 2 0] idleManager
       = (Fulfilled tt, s') /\
     lastKnownUpdatedAt s' = 0 /\
     pagePullQuery s' = Query.skip 2 todoQuery /\
     offset (pagePullQuery s') = 2)
  /\
  (* the last record is later than the cursor: the cursor advances *)
  (exists s',
     updateQueryForNextPage [liveRecord 1 0; liveRecord 2 7] idleManager
       = (Fulfilled tt, s') /\
     lastKnownUpdatedAt s' = 7 /\
     offset (pagePullQuery s') = 0 /\
     Components.filters (pagePullQuery s') = Some (FUpdatedAtGe 7) /\
     Components.ordering (pagePullQuery s') = [("updatedAt"%string, true)] /\
     Components.take (pagePullQuery s') = Some 50 /\
     Components.table (pagePullQuery s') = "todo"%string).
Proof.
  split.
  - destruct (cursor_advance_or_tie_break
                [liveRecord 1 0; liveRecord 2 0] (liveRecord 2 0) 0 idleManager
                eq_refl eq_refl eq_refl) as (s' & Hrun & Htie & _).
    exists s'. split; [exact Hrun | exact (Htie eq_refl)].
  - destruct (cursor_advance_or_tie_break
                [liveRecord 1 0; liveRecord 2 7] (liveRecord 2 7) 7 idleManager
                eq_refl eq_refl eq_refl) as (s' & Hrun & _ & Hadv).
    exists s'. split; [exact Hrun | exact (Hadv ltac:(discriminate))].
Defined.

(** ** Loading the checkpoint (getLastKnownUpdatedAt) *)

(** C8, as the code has it.  Loading never rejects.  Without an identity,
    with the empty string as identity, or with an identity that has no row
    in the pulltime table, the result is the date [new Date(1970, 0, 0)]:
    midnight of the 31st of December 1969 in local time, 86400000 ms before
    the epoch shifted by the timezone offset.  With a non-empty identity
    that has a row, the result is the value stored in the row.  The store is
    looked up only for a non-empty identity. *)
Theorem checkpoint_load env s :
  (forall e, fst (getLastKnownUpdatedAt env s) <> Rejected e) /\
  (truthy_str (pullQueryId s) = false ->
     getLastKnownUpdatedAt env s
       = (Fulfilled (-86400000 + timezoneOffset env * 60000), s)) /\
  (forall queryId,
     pullQueryId s = Some queryId -> truthy_str (Some queryId) = true ->
     pulltime s !! queryId = None ->
     getLastKnownUpdatedAt env s
       = (Fulfilled (-86400000 + timezoneOffset env * 60000),
          after_calls s [PulltimeLookup queryId None])) /\
  (forall queryId row,
     pullQueryId s = Some queryId -> truthy_str (Some queryId) = true ->
     pulltime s !! queryId = Some row ->
     getLastKnownUpdatedAt env s
       = (Fulfilled (row_value row),
          after_calls s [PulltimeLookup queryId (Some row)])).
Proof.
  unfold getLastKnownUpdatedAt, after_calls, Date_1970_0_0. run.
  destruct s as [ps cur tq pq [i|] rows cs]; simpl.
  - destruct (String.eqb i EmptyString) eqn:Ei; simpl.
    + repeat split; try discriminate; intros; simplify_eq; simpl in *;
        try rewrite Ei in *; discriminate.
    + repeat split.
      * intros e. now destruct (rows !! i).
      * discriminate.
      * intros q Hq _ Hrow. simplify_eq. now rewrite Hrow.
      * intros q row Hq _ Hrow. simplify_eq. now rewrite Hrow.
  - repeat split; try discriminate.
Qed.

(** C8, as stated, fails: without an identity, in a timezone at UTC, the
    loaded date is 86400000 ms before the epoch, not the smallest date; one
    hour east or west of it the loaded date is another one.  And for the
    empty string as identity the table is not looked up: a row stored under
    it is not what is loaded. *)
Lemma sentinel_is_not_the_minimum_timestamp :
  fst (getLastKnownUpdatedAt (scriptedEnv [] [] 0) idleManager)
    = Fulfilled (-86400000) /\
  fst (getLastKnownUpdatedAt (scriptedEnv [] [] 0) idleManager)
    <> Fulfilled minTimeValue /\
  fst (getLastKnownUpdatedAt (scriptedEnv [] [] 60) idleManager)
    <> fst (getLastKnownUpdatedAt (scriptedEnv [] [] 0) idleManager) /\
  getLastKnownUpdatedAt (scriptedEnv [] [] 0)
      (mkPM defaultPageSize 0 todoQuery todoQuery (Some EmptyString)
            {[ EmptyString := mkRow EmptyString "todo" 42 ]} [])
    = (Fulfilled (-86400000),
       mkPM defaultPageSize 0 todoQuery todoQuery (Some EmptyString)
            {[ EmptyString := mkRow EmptyString "todo" 42 ]} []).
Proof.
  repeat split; try reflexivity; vm_compute; discriminate.
Qed.

Lemma checkpoint_load_witness :
  getLastKnownUpdatedAt (scriptedEnv [] [] 60) idleManager
    = (Fulfilled (-82800000), idleManager)
  /\
  getLastKnownUpdatedAt (scriptedEnv [] [] 60) (incrementalManager ∅)
    = (Fulfilled (-82800000),
       after_calls (incrementalManager ∅) [PulltimeLookup "q" None])
  /\
  getLastKnownUpdatedAt (scriptedEnv [] [] 60)
      (incrementalManager {[ "q"%string := rowOfQ 42 ]})
    = (Fulfilled 42,
       after_calls (incrementalManager {[ "q"%string := rowOfQ 42 ]})
         [PulltimeLookup "q" (Some (rowOfQ 42))]).
Proof.
  split; [|split].
  - exact (proj1 (proj2 (checkpoint_load (scriptedEnv [] [] 60) idleManager))
             eq_refl).
  - apply (proj1 (proj2 (proj2
             (checkpoint_load (scriptedEnv [] [] 60) (incrementalManager ∅))))
             "q"%string); [reflexivity | reflexivity | vm_compute; reflexivity].
  - apply (proj2 (proj2 (proj2
             (checkpoint_load (scriptedEnv [] [] 60)
                (incrementalManager {[ "q"%string := rowOfQ 42 ]}))))
             "q"%string (rowOfQ 42));
      [reflexivity | reflexivity | vm_compute; reflexivity].
Defined.

(** ** One page, one iteration *)

Section Loop.

Variable env : Collaborators.

Lemma pullPage_run s :
  pullPage env s =
  match processAllRecords_loop (nextPending env s) (nextPage env s) [] [] with
  | Fulfilled batches =>
      (Fulfilled (nextPage env s),
       after_onPagePulled
         (after_calls s (fetchCalls env s ++ applyCalls s batches)))
  | Rejected e => (Rejected e, after_calls s (fetchCalls env s))
  | Unsettled => (Unsettled, after_calls s (fetchCalls env s))
  end.
Proof.
  rewrite pullPage_eq. cbv zeta. rewrite processPulledRecords_eq. cbv zeta.
  unfold nextPending, nextPage, fetchCalls, applyCalls, after_calls. simpl.
  destruct (processAllRecords_loop _ _ [] []) as [b|e|]; simpl;
    rewrite <- ?app_assoc; reflexivity.
Qed.

Lemma pullAllPages_step fuel s :
  pullAllPages env (S fuel) s =
  match pullPage env s with
  | (Fulfilled pulledRecords, s1) =>
      if isPullComplete pulledRecords then (Fulfilled tt, s1)
      else match updateQueryForNextPage pulledRecords s1 with
           | (Fulfilled _, s2) => pullAllPages env fuel s2
           | (Rejected e, s2) => (Rejected e, s2)
           | (Unsettled, s2) => (Unsettled, s2)
           end
  | (Rejected e, s1) => (Rejected e, s1)
  | (Unsettled, s1) => (Unsettled, s1)
  end.
Proof.
  simpl. unfold bind at 1.
  destruct (pullPage env s) as [[page|e|] s1]; try reflexivity.
  destruct (isPullComplete page); reflexivity.
Qed.

(** What [updateQueryForNextPage] leaves alone. *)
Lemma updateQueryForNextPage_frame pulledRecords s :
  let s' := snd (updateQueryForNextPage pulledRecords s) in
  pageSize s' = pageSize s /\ tablePullQuery s' = tablePullQuery s /\
  pullQueryId s' = pullQueryId s /\ pulltime s' = pulltime s /\
  calls s' = calls s.
Proof.
  unfold updateQueryForNextPage.
  destruct (last pulledRecords) as [r|]; [|simpl; auto].
  destruct (PulledRecord.updatedAt r); try (simpl; auto 6; fail).
  run. destruct (t =? lastKnownUpdatedAt s); simpl; auto 6.
Qed.

Lemma updateQueryForNextPage_settles pulledRecords s :
  fst (updateQueryForNextPage pulledRecords s) <> Unsettled.
Proof.
  unfold updateQueryForNextPage.
  destruct (last pulledRecords) as [r|]; [|simpl; discriminate].
  destruct (PulledRecord.updatedAt r); try (simpl; discriminate).
  run. destruct (t =? lastKnownUpdatedAt s); simpl; discriminate.
Qed.

(** What [onPagePulled] and [pullPage] leave alone. *)
Lemma after_onPagePulled_frame s :
  let s' := after_onPagePulled s in
  pageSize s' = pageSize s /\ lastKnownUpdatedAt s' = lastKnownUpdatedAt s /\
  tablePullQuery s' = tablePullQuery s /\ pagePullQuery s' = pagePullQuery s /\
  pullQueryId s' = pullQueryId s.
Proof.
  unfold after_onPagePulled. destruct (pullQueryId s) as [i|] eqn:E; simpl;
    [|rewrite E; auto 6].
  destruct (String.eqb i EmptyString); simpl; rewrite ?E; auto 6.
Qed.

Lemma pullPage_frame s :
  let s' := snd (pullPage env s) in
  pageSize s' = pageSize s /\ lastKnownUpdatedAt s' = lastKnownUpdatedAt s /\
  tablePullQuery s' = tablePullQuery s /\ pagePullQuery s' = pagePullQuery s /\
  pullQueryId s' = pullQueryId s.
Proof.
  rewrite pullPage_run.
  destruct (processAllRecords_loop _ _ [] []) as [b|e|]; simpl; auto 6.
  apply (after_onPagePulled_frame (after_calls s _)).
Qed.

End Loop.

(** ** The calls of a run *)

Lemma fetchedPages_app evs1 evs2 :
  fetchedPages (evs1 ++ evs2) = fetchedPages evs1 ++ fetchedPages evs2.
Proof.
  induction evs1 as [|e evs1 IH]; simpl; [reflexivity|].
  destruct e; simpl; now rewrite IH.
Qed.

Lemma calls_after_onPagePulled s :
  calls (after_onPagePulled s) = calls s ++ checkpointCalls s.
Proof.
  unfold after_onPagePulled, checkpointCalls.
  destruct (pullQueryId s) as [i|]; simpl; [|now rewrite app_nil_r].
  destruct (String.eqb i EmptyString); simpl; [now rewrite app_nil_r|reflexivity].
Qed.

Lemma fetchedPages_checkpointCalls s : fetchedPages (checkpointCalls s) = [].
Proof.
  unfold checkpointCalls. destruct (pullQueryId s) as [i|]; simpl; [|reflexivity].
  destruct (String.eqb i EmptyString); reflexivity.
Qed.

Section Shape.

Variable env : Collaborators.

(** [pullPage] fetches one page; it is fulfilled with that page, or is
    rejected, which an empty page never is. *)
Lemma pullPage_calls s :
  exists evs,
    calls (snd (pullPage env s)) = calls s ++ evs /\
    fetchedPages evs = [nextPage env s] /\
    (fst (pullPage env s) = Fulfilled (nextPage env s) \/
     (exists e, fst (pullPage env s) = Rejected e) /\ nextPage env s <> []).
Proof.
  rewrite pullPage_run.
  destruct (processAllRecords_loop _ _ [] []) as [b|e|] eqn:E; simpl.
  - rewrite calls_after_onPagePulled. simpl. rewrite <- app_assoc.
    eexists. split; [reflexivity|]. split; [|now left].
    rewrite fetchedPages_app, fetchedPages_checkpointCalls. reflexivity.
  - eexists. split; [reflexivity|]. split; [reflexivity|]. right.
    split; [eauto|]. intros Hnil. rewrite Hnil in E. discriminate.
  - now apply processAllRecords_loop_settles in E.
Qed.

Lemma isPullComplete_spec page : isPullComplete page = true <-> page = [].
Proof. unfold isPullComplete. destruct page; simpl; split; congruence. Qed.

(** The fetches of a run of the loop, by its outcome. *)
Lemma pullAllPages_shape fuel : forall s,
  exists evs,
    calls (snd (pullAllPages env fuel s)) = calls s ++ evs /\
    match fst (pullAllPages env fuel s) with
    | Fulfilled _ =>
        exists before,
          fetchedPages evs = before ++ [[]] /\
          Forall (fun page => page <> []) before /\
          (length before < fuel)%nat
    | Rejected _ =>
        Forall (fun page => page <> []) (fetchedPages evs) /\
        (length (fetchedPages evs) <= fuel)%nat
    | Unsettled =>
        Forall (fun page => page <> []) (fetchedPages evs) /\
        length (fetchedPages evs) = fuel
    end.
Proof.
  induction fuel as [|fuel IH]; intros s.
  - exists []. simpl. rewrite app_nil_r. auto.
  - rewrite pullAllPages_step.
    destruct (pullPage_calls s) as (evs1 & Hcalls1 & Hpages1 & Hout1).
    destruct (pullPage env s) as [o1 s1]; simpl in *.
    destruct Hout1 as [-> | [[e ->] Hne]].
    + destruct (isPullComplete (nextPage env s)) eqn:Hdone.
      * apply isPullComplete_spec in Hdone. exists evs1. simpl.
        split; [assumption|]. exists []. rewrite Hpages1, Hdone.
        split; [reflexivity|]. split; [constructor | simpl; lia].
      * assert (Hne : nextPage env s <> []).
        { intros Hnil. apply isPullComplete_spec in Hnil. congruence. }
        pose proof (updateQueryForNextPage_frame (nextPage env s) s1)
          as (_ & _ & _ & _ & Hcalls2).
        pose proof (updateQueryForNextPage_settles (nextPage env s) s1) as Hset.
        destruct (updateQueryForNextPage (nextPage env s) s1) as [[[]|e|] s2];
          simpl in *.
        -- destruct (IH s2) as (evs2 & Hcalls3 & Hshape).
           exists (evs1 ++ evs2). rewrite Hcalls3, Hcalls2, Hcalls1, app_assoc.
           split; [reflexivity|]. rewrite fetchedPages_app, Hpages1. simpl.
           destruct (fst (pullAllPages env fuel s2)).
           ++ destruct Hshape as (before & -> & Hall & Hlen).
              exists (nextPage env s :: before). split; [reflexivity|].
              split; [constructor; assumption | simpl; lia].
           ++ destruct Hshape as [Hall Hlen]. split;
                [constructor; assumption | simpl; lia].
           ++ destruct Hshape as [Hall Hlen]. split;
                [constructor; assumption | simpl; lia].
        -- exists evs1. rewrite Hcalls2, Hpages1. split; [assumption|].
           split; [repeat constructor; assumption | simpl; lia].
        -- congruence.
    + exists evs1. rewrite Hpages1. split; [assumption|].
      split; [repeat constructor; assumption | simpl; lia].
Qed.

End Shape.

(** ** Setting up a pull *)

Section Setup.

Variable env : Collaborators.

Lemma setupQuery_run s :
  setupQuery env s =
  (Fulfilled tt,
   mkPM (pageSize s) (loadedCursor env s) (tablePullQuery s)
        (pageQueryFor (tablePullQuery s) (pageSize s) (loadedCursor env s))
        (pullQueryId s) (pulltime s) (calls s ++ loadCalls s)).
Proof.
  unfold setupQuery, getLastKnownUpdatedAt, loadedCursor, loadCalls, pageQueryFor.
  run. destruct s as [ps cur tq pq [i|] rows cs]; simpl.
  - destruct (String.eqb i EmptyString); simpl.
    + now rewrite app_nil_r.
    + destruct (rows !! i); reflexivity.
  - now rewrite app_nil_r.
Qed.

Lemma pull_run fuel query queryId settings s :
  pull env fuel query queryId settings s =
  match validateQuery query, pageSizeOf settings with
  | Fulfilled _, Fulfilled size =>
      pullAllPages env fuel (startState env query queryId size s)
  | Fulfilled _, Rejected e => (Rejected e, s)
  | Fulfilled _, Unsettled => (Unsettled, s)
  | Rejected e, _ => (Rejected e, s)
  | Unsettled, _ => (Unsettled, s)
  end.
Proof.
  unfold pull, startState. unfold bind at 1. unfold lift at 1.
  destruct (validateQuery query) as [[]|e|]; try reflexivity.
  unfold bind at 1. unfold lift at 1.
  destruct (pageSizeOf settings) as [size|e|]; try reflexivity.
  unfold bind at 1. unfold set_pageSize at 1.
  unfold bind at 1. unfold set_tablePullQuery at 1.
  unfold bind at 1. unfold set_pullQueryId at 1. simpl.
  unfold bind at 1. rewrite !setupQuery_run. reflexivity.
Qed.

Lemma startState_calls query queryId size s :
  exists evs,
    calls (startState env query queryId size s) = calls s ++ evs /\
    fetchedPages evs = [] /\
    Forall (fun e => isStoreMutation e = false) evs.
Proof.
  unfold startState. rewrite setupQuery_run. simpl.
  eexists. split; [reflexivity|]. unfold loadCalls. simpl.
  destruct queryId as [i|]; simpl; [|auto].
  destruct (String.eqb i EmptyString); simpl; auto.
Qed.

End Setup.

(** ** Completion of the loop *)

Lemma validateQuery_settles query : validateQuery query <> Unsettled.
Proof.
  pose proof (validateQuery_cases query) as H.
  destruct (usesUnsupportedOperation query).
  - destruct H as (e & -> & _). discriminate.
  - rewrite H. discriminate.
Qed.

Lemma pageSizeOf_settles settings : pageSizeOf settings <> Unsettled.
Proof.
  unfold pageSizeOf. destruct settings as [[v]|]; simpl; [|discriminate].
  destruct v; try discriminate. destruct (0 <? n); discriminate.
Qed.

Lemma pull_shape env fuel query queryId settings s :
  exists evs,
    calls (snd (pull env fuel query queryId settings s)) = calls s ++ evs /\
    match fst (pull env fuel query queryId settings s) with
    | Fulfilled _ =>
        exists before,
          fetchedPages evs = before ++ [[]] /\
          Forall (fun page => page <> []) before /\
          (length before < fuel)%nat
    | Rejected _ =>
        Forall (fun page => page <> []) (fetchedPages evs) /\
        (length (fetchedPages evs) <= fuel)%nat
    | Unsettled =>
        Forall (fun page => page <> []) (fetchedPages evs) /\
        length (fetchedPages evs) = fuel
    end.
Proof.
  rewrite pull_run.
  pose proof (validateQuery_settles query) as Hv.
  pose proof (pageSizeOf_settles settings) as Hp.
  destruct (validateQuery query) as [[]|e|]; [| |congruence].
  - destruct (pageSizeOf settings) as [size|e|]; [| |congruence].
    + destruct (startState_calls env query queryId size s) as (evs0 & Hc0 & Hf0 & _).
      destruct (pullAllPages_shape env fuel (startState env query queryId size s))
        as (evs & Hc & Hshape).
      exists (evs0 ++ evs). rewrite Hc, Hc0, app_assoc. split; [reflexivity|].
      rewrite fetchedPages_app, Hf0. exact Hshape.
    + exists []. simpl. rewrite app_nil_r. split; [reflexivity|].
      split; [constructor | lia].
  - exists []. simpl. rewrite app_nil_r. split; [reflexivity|].
    split; [constructor | lia].
Qed.

(** C2. In every run of [pull], the run is fulfilled exactly when an empty
    page was fetched, and that page is then the last one fetched, all the
    pages before it holding records.  A page that holds records, however
    few, never completes the pull: unless the run is rejected, the next
    fetch follows it (the model issuing it as long as it has fuel). *)
Theorem pull_completes_exactly_on_an_empty_page env fuel query queryId settings s :
  let run := pull env fuel query queryId settings s in
  let pages := fetchedPages (drop (length (calls s)) (calls (snd run))) in
  (fst run = Fulfilled tt <-> In [] pages) /\
  (fst run = Fulfilled tt ->
     exists before, pages = before ++ [[]] /\
                    Forall (fun page => page <> []) before) /\
  (fst run = Unsettled -> length pages = fuel) /\
  (forall k page,
     pages !! k = Some page -> page <> [] ->
     (forall e, fst run <> Rejected e) -> (S k < fuel)%nat ->
     is_Some (pages !! S k)).
Proof.
  cbv zeta.
  destruct (pull_shape env fuel query queryId settings s) as (evs & Hcalls & Hshape).
  rewrite Hcalls, drop_app_length.
  destruct (fst (pull env fuel query queryId settings s)) as [[]|e|].
  - destruct Hshape as (before & Hpages & Hall & Hlen). rewrite Hpages.
    split; [|split; [|split]].
    + split; [|reflexivity]. intros _. apply in_or_app. right. simpl. auto.
    + intros _. exists before. auto.
    + discriminate.
    + intros k page Hk Hne _ _. apply lookup_lt_is_Some.
      rewrite length_app. simpl.
      destruct (decide (k < length before)%nat) as [|Hge]; [lia|].
      exfalso. rewrite lookup_app_r in Hk by lia.
      destruct (k - length before)%nat; simpl in Hk; [congruence|discriminate].
  - destruct Hshape as [Hall Hlen]. split; [|split; [|split]].
    + split; [discriminate|]. intros Hin. rewrite Forall_forall in Hall.
      apply list_elem_of_In in Hin. now apply Hall in Hin.
    + discriminate.
    + discriminate.
    + intros k page _ _ Hrej _. now destruct (Hrej e).
  - destruct Hshape as [Hall Hlen]. split; [|split; [|split]].
    + split; [discriminate|]. intros Hin. rewrite Forall_forall in Hall.
      apply list_elem_of_In in Hin. now apply Hall in Hin.
    + discriminate.
    + intros _. exact Hlen.
    + intros k page _ _ _ Hk. apply lookup_lt_is_Some. lia.
Qed.

Lemma pull_completes_exactly_on_an_empty_page_witness :
  let run := pull threeRecordsEnv 5 todoQuery (Some "q"%string) pagesOfTwo idleManager in
  let pages := fetchedPages (drop (length (calls idleManager)) (calls (snd run))) in
  fst run = Fulfilled tt /\
  (exists before, pages = before ++ [[]] /\ Forall (fun page => page <> []) before) /\
  is_Some (pages !! 2%nat).
Proof.
  cbv zeta.
  pose proof (pull_completes_exactly_on_an_empty_page
                threeRecordsEnv 5 todoQuery (Some "q"%string) pagesOfTwo idleManager)
    as (Hiff & Hlast & _ & Hnext).
  assert (Hdone : fst (pull threeRecordsEnv 5 todoQuery (Some "q"%string)
                         pagesOfTwo idleManager) = Fulfilled tt).
  { apply Hiff. vm_compute. auto. }
  split; [exact Hdone|]. split; [exact (Hlast Hdone)|].
  apply (Hnext 1%nat [liveRecord 3 20]).
  - vm_compute. reflexivity.
  - discriminate.
  - intros e. rewrite Hdone. discriminate.
  - lia.
Defined.

(** ** Pulls without an identity *)

Section Vanilla.

Variable env : Collaborators.

Lemma after_onPagePulled_vanilla s :
  truthy_str (pullQueryId s) = false -> after_onPagePulled s = s.
Proof.
  unfold after_onPagePulled. destruct (pullQueryId s) as [i|]; [|reflexivity].
  now intros ->.
Qed.

Lemma pullPage_vanilla s :
  truthy_str (pullQueryId s) = false ->
  exists evs,
    calls (snd (pullPage env s)) = calls s ++ evs /\
    Forall (fun e => isCheckpointAccess e = false) evs /\
    pulltime (snd (pullPage env s)) = pulltime s.
Proof.
  intros Hid. rewrite pullPage_run.
  destruct (processAllRecords_loop _ _ [] []) as [b|e|]; simpl.
  - rewrite after_onPagePulled_vanilla by exact Hid. simpl.
    eexists. split; [reflexivity|]. split; [|reflexivity].
    repeat constructor.
  - eexists. split; [reflexivity|]. split; [|reflexivity]. repeat constructor.
  - eexists. split; [reflexivity|]. split; [|reflexivity]. repeat constructor.
Qed.

Lemma pullAllPages_vanilla fuel : forall s,
  truthy_str (pullQueryId s) = false ->
  exists evs,
    calls (snd (pullAllPages env fuel s)) = calls s ++ evs /\
    Forall (fun e => isCheckpointAccess e = false) evs /\
    pulltime (snd (pullAllPages env fuel s)) = pulltime s.
Proof.
  induction fuel as [|fuel IH]; intros s Hid.
  - exists []. simpl. rewrite app_nil_r. auto.
  - rewrite pullAllPages_step.
    destruct (pullPage_vanilla s Hid) as (evs1 & Hc1 & Hall1 & Hrows1).
    pose proof (pullPage_frame env s) as (_ & _ & _ & _ & Hid1).
    destruct (pullPage env s) as [[page|e|] s1]; simpl in *; eauto.
    destruct (isPullComplete page); simpl; eauto.
    pose proof (updateQueryForNextPage_frame page s1)
      as (_ & _ & Hid2 & Hrows2 & Hc2).
    destruct (updateQueryForNextPage page s1) as [[[]|e|] s2]; simpl in *.
    + destruct (IH s2) as (evs2 & Hc3 & Hall2 & Hrows3); [congruence|].
      exists (evs1 ++ evs2). rewrite Hc3, Hc2, Hc1, app_assoc.
      split; [reflexivity|]. split; [now apply Forall_app|]. congruence.
    + exists evs1. split; [congruence|]. split; [assumption|congruence].
    + exists evs1. split; [congruence|]. split; [assumption|congruence].
Qed.

End Vanilla.

(** C7. A pull without an identity leaves the pulltime table as it was and
    issues neither an upsert to nor a lookup in it, whatever the fuel (the
    number of pages), the remote table and the outcome; [onPagePulled] does
    nothing at all when the identity is null. *)
Theorem vanilla_pull_writes_no_checkpoint env fuel query settings s :
  let s' := snd (pull env fuel query None settings s) in
  pulltime s' = pulltime s /\
  Forall (fun e => isCheckpointAccess e = false)
         (drop (length (calls s)) (calls s')) /\
  (forall size cursor tableQuery pageQuery rows log,
     onPagePulled (mkPM size cursor tableQuery pageQuery None rows log)
       = (Fulfilled tt, mkPM size cursor tableQuery pageQuery None rows log)).
Proof.
  cbv zeta. split; [|split].
  - rewrite pull_run.
    destruct (validateQuery query) as [[]|e|]; try reflexivity.
    destruct (pageSizeOf settings) as [size|e|]; try reflexivity.
    destruct (pullAllPages_vanilla env fuel (startState env query None size s))
      as (evs & _ & _ & Hrows).
    { unfold startState. rewrite setupQuery_run. reflexivity. }
    rewrite Hrows. unfold startState. rewrite setupQuery_run. reflexivity.
  - rewrite pull_run.
    destruct (validateQuery query) as [[]|e|];
      try (simpl; rewrite drop_all; constructor).
    destruct (pageSizeOf settings) as [size|e|];
      try (simpl; rewrite drop_all; constructor).
    destruct (pullAllPages_vanilla env fuel (startState env query None size s))
      as (evs & Hcalls & Hall & _).
    { unfold startState. rewrite setupQuery_run. reflexivity. }
    rewrite Hcalls. unfold startState. rewrite setupQuery_run. simpl.
    rewrite app_nil_r, drop_app_length. exact Hall.
  - intros. reflexivity.
Qed.

(** ** The cursor never goes back *)

Section Monotone.

Variable holds : string -> PulledRecord.t -> bool.
Variable env : Collaborators.
Hypothesis Hserver : respectsFilter holds env.

Lemma pageQueryFor_filtersByCursor tableQuery size cursor record :
  satisfiesQuery holds (pageQueryFor tableQuery size cursor) record = true ->
  updatedAtGe cursor record = true.
Proof.
  unfold satisfiesQuery, pageQueryFor, copyQuery. simpl.
  unfold Query.getComponents, Query.setComponents.
  destruct (Components.filters tableQuery); simpl; [|auto].
  intros H. now apply andb_prop in H as [_ H].
Qed.

Lemma updateQueryForNextPage_monotone page s :
  (forall record, In record page ->
                  updatedAtGe (lastKnownUpdatedAt s) record = true) ->
  lastKnownUpdatedAt s <= lastKnownUpdatedAt (snd (updateQueryForNextPage page s)).
Proof.
  intros Hpage. unfold updateQueryForNextPage.
  destruct (last page) as [r|] eqn:Hlast; [|simpl; lia].
  apply last_Some_elem_of, list_elem_of_In, Hpage in Hlast.
  unfold updatedAtGe in Hlast.
  destruct (PulledRecord.updatedAt r); try (simpl; lia).
  run. destruct (t =? lastKnownUpdatedAt s); simpl; lia.
Qed.

Lemma updateQueryForNextPage_filtersByCursor page s :
  filtersByCursor holds s ->
  filtersByCursor holds (snd (updateQueryForNextPage page s)).
Proof.
  intros Hinv. unfold updateQueryForNextPage.
  destruct (last page) as [r|]; [|exact Hinv].
  destruct (PulledRecord.updatedAt r); try exact Hinv.
  run. destruct (t =? lastKnownUpdatedAt s); simpl.
  - exact Hinv.
  - intros record. apply pageQueryFor_filtersByCursor.
Qed.

Lemma pullPage_filtersByCursor s :
  filtersByCursor holds s -> filtersByCursor holds (snd (pullPage env s)).
Proof.
  intros Hinv record.
  pose proof (pullPage_frame env s) as (_ & Hcur & _ & Hq & _).
  simpl in Hcur, Hq. rewrite Hcur. unfold satisfiesQuery. rewrite Hq.
  apply Hinv.
Qed.

(** Every record of the page fetched in state [s] is at or after the
    cursor of [s]. *)
Lemma nextPage_at_or_after_cursor s record :
  filtersByCursor holds s -> In record (nextPage env s) ->
  updatedAtGe (lastKnownUpdatedAt s) record = true.
Proof. intros Hinv Hin. apply Hinv. exact (Hserver _ _ _ Hin). Qed.

Lemma pullAllPages_monotone fuel : forall s,
  filtersByCursor holds s ->
  lastKnownUpdatedAt s <= lastKnownUpdatedAt (snd (pullAllPages env fuel s)) /\
  filtersByCursor holds (snd (pullAllPages env fuel s)).
Proof.
  induction fuel as [|fuel IH]; intros s Hinv.
  - simpl. split; [lia|assumption].
  - rewrite pullAllPages_step.
    pose proof (pullPage_frame env s) as (_ & Hcur & _ & _ & _).
    pose proof (pullPage_filtersByCursor s Hinv) as Hinv1.
    destruct (pullPage_calls env s) as (_ & _ & _ & Hout).
    destruct (pullPage env s) as [o1 s1]; simpl in *.
    destruct o1 as [page|e|]; simpl; [|split; [lia|assumption]..].
    destruct Hout as [Hpage | [[e He] _]]; [|discriminate].
    injection Hpage as ->.
    destruct (isPullComplete (nextPage env s)); simpl; [split; [lia|assumption]|].
    assert (Hmono : lastKnownUpdatedAt s1 <= lastKnownUpdatedAt
                      (snd (updateQueryForNextPage (nextPage env s) s1))).
    { apply updateQueryForNextPage_monotone. intros record Hin. rewrite Hcur.
      now apply nextPage_at_or_after_cursor. }
    pose proof (updateQueryForNextPage_filtersByCursor (nextPage env s) s1 Hinv1)
      as Hinv2.
    destruct (updateQueryForNextPage (nextPage env s) s1) as [[[]|e|] s2];
      simpl in *; [|split; [lia|assumption]..].
    destruct (IH s2 Hinv2) as [Hle Hinv3]. split; [lia|assumption].
Qed.

(** More fuel continues the run from where less fuel left it. *)
Lemma pullAllPages_more_fuel n m : forall s,
  pullAllPages env (n + m) s =
  match pullAllPages env n s with
  | (Unsettled, s1) => pullAllPages env m s1
  | settled => settled
  end.
Proof.
  induction n as [|n IH]; intros s.
  - reflexivity.
  - change (S n + m)%nat with (S (n + m)). rewrite !pullAllPages_step.
    pose proof (pullPage_calls env s) as (_ & _ & _ & Hout).
    destruct (pullPage env s) as [[page|e|] s1]; simpl in *; try reflexivity.
    + destruct (isPullComplete page); [reflexivity|].
      pose proof (updateQueryForNextPage_settles page s1) as Hset.
      destruct (updateQueryForNextPage page s1) as [[[]|e|] s2]; simpl in *;
        [apply IH | reflexivity | congruence].
    + destruct Hout as [Hout | [[e He] _]]; discriminate.
Qed.

Lemma startState_filtersByCursor query queryId size s :
  filtersByCursor holds (startState env query queryId size s).
Proof.
  unfold startState. rewrite setupQuery_run. intros record. simpl.
  apply pageQueryFor_filtersByCursor.
Qed.

End Monotone.

(** C9. Against a remote table that answers with records passing the filter
    of the page query (so with [updatedAt >= cursor]), the cursor never goes
    back during a pull: the cursor a run has reached with some fuel is at
    most the cursor it has reached with more fuel, the cursor loaded by the
    setup (fuel 0) included.  Step by step: fetching, reconciling and
    checkpointing a page leave the cursor as it is, and the update of the
    query for the next page leaves it or moves it forward. *)
Theorem cursor_never_decreases holds env :
  respectsFilter holds env ->
  (forall query queryId settings s n m,
     lastKnownUpdatedAt (snd (pull env n query queryId settings s))
     <= lastKnownUpdatedAt (snd (pull env (n + m) query queryId settings s))) /\
  (forall s fuel,
     filtersByCursor holds s ->
     lastKnownUpdatedAt s <= lastKnownUpdatedAt (snd (pullAllPages env fuel s))) /\
  (forall s,
     filtersByCursor holds s ->
     lastKnownUpdatedAt (snd (pullPage env s)) = lastKnownUpdatedAt s /\
     lastKnownUpdatedAt s
     <= lastKnownUpdatedAt
          (snd (updateQueryForNextPage (nextPage env s) (snd (pullPage env s))))) /\
  (forall s, lastKnownUpdatedAt (snd (onPagePulled s)) = lastKnownUpdatedAt s).
Proof.
  intros Hserver. split; [|split; [|split]].
  - intros query queryId settings s n m. rewrite !pull_run.
    destruct (validateQuery query) as [[]|e|]; try lia.
    destruct (pageSizeOf settings) as [size|e|]; try lia.
    rewrite pullAllPages_more_fuel.
    pose proof (pullAllPages_monotone holds env Hserver n
                  (startState env query queryId size s)
                  (startState_filtersByCursor holds env query queryId size s))
      as [_ Hinv].
    destruct (pullAllPages env n (startState env query queryId size s))
      as [[[]|e|] s1]; simpl in *; try lia.
    apply (pullAllPages_monotone holds env Hserver m s1 Hinv).
  - intros s fuel Hinv. apply (pullAllPages_monotone holds env Hserver fuel s Hinv).
  - intros s Hinv.
    pose proof (pullPage_frame env s) as (_ & Hcur & _ & _ & _). simpl in Hcur.
    split; [exact Hcur|]. rewrite <- Hcur at 1.
    apply updateQueryForNextPage_monotone. intros record Hin. rewrite Hcur.
    now apply (nextPage_at_or_after_cursor holds env Hserver).
  - intros s. rewrite onPagePulled_eq. simpl.
    apply (after_onPagePulled_frame s).
Qed.

Lemma tableServer_respectsFilter rows tz :
  respectsFilter (fun _ _ => true) (tableServer rows tz).
Proof.
  intros history q record Hin. simpl in Hin.
  assert (Hrest : record ∈ drop (Z.to_nat (offset q))
                    (List.filter (satisfiesQuery (fun _ _ => true) q) rows)).
  { apply list_elem_of_In in Hin. destruct (Components.take q) as [n|].
    - now apply (subseteq_take (Z.to_nat n)).
    - exact Hin. }
  apply subseteq_drop, list_elem_of_In, filter_In in Hrest. tauto.
Qed.

Lemma cursor_never_decreases_witness :
  lastKnownUpdatedAt
    (snd (pull (tableServer threeRows 0) 1 todoQuery (Some "q"%string)
            pagesOfTwo idleManager))
  <= lastKnownUpdatedAt
       (snd (pull (tableServer threeRows 0) (1 + 2) todoQuery (Some "q"%string)
               pagesOfTwo idleManager)).
Proof.
  apply (proj1 (cursor_never_decreases (fun _ _ => true) (tableServer threeRows 0)
                  (tableServer_respectsFilter threeRows 0))).
Defined.

(** ** Pulls with an identity *)

Lemma everyFetchCheckpointed_app evs1 evs2 : forall awaiting,
  everyFetchCheckpointed awaiting evs1 = true ->
  everyFetchCheckpointed false evs2 = true ->
  everyFetchCheckpointed awaiting (evs1 ++ evs2) = true.
Proof.
  induction evs1 as [|e evs1 IH]; intros awaiting H1 H2; simpl in *.
  - destruct awaiting; [discriminate | exact H2].
  - destruct e; auto.
    apply andb_prop in H1 as [Ha H1]. rewrite Ha. simpl. auto.
Qed.





Section Incremental.

Variable env : Collaborators.

Lemma pullPage_incremental s i :
  pullQueryId s = Some i -> truthy_str (Some i) = true ->
  (forall e, fst (pullPage env s) <> Rejected e) ->
  exists batches,
    pullPage env s =
    (Fulfilled (nextPage env s),
     after_checkpoint
       (after_calls s (fetchCalls env s ++ applyCalls s batches)) i).
Proof.
  intros Hid Htruthy Hok. rewrite pullPage_run in *.
  pose proof (processAllRecords_loop_settles (nextPending env s) (nextPage env s)
                [] []) as Hset.
  destruct (processAllRecords_loop _ _ [] []) as [b|e|]; simpl in *.
  - exists b. unfold after_onPagePulled. simpl. rewrite Hid.
    simpl in Htruthy. now rewrite Htruthy.
  - now destruct (Hok e).
  - congruence.
Qed.




End Incremental.




(** ** The table query of a pull *)

(** The loop never touches the table query, the page size or the identity. *)
Lemma pullAllPages_frame env fuel : forall s,
  let s' := snd (pullAllPages env fuel s) in
  tablePullQuery s' = tablePullQuery s /\ pageSize s' = pageSize s /\
  pullQueryId s' = pullQueryId s.
Proof.
  induction fuel as [|fuel IH]; intros s; [simpl; auto|].
  cbv zeta. rewrite pullAllPages_step.
  pose proof (pullPage_frame env s) as (Hps & _ & Htq & _ & Hid).
  destruct (pullPage env s) as [[page|e|] s1]; simpl in *; auto.
  destruct (isPullComplete page); simpl; auto.
  pose proof (updateQueryForNextPage_frame page s1) as (Hps2 & Htq2 & Hid2 & _).
  destruct (updateQueryForNextPage page s1) as [[[]|e|] s2]; simpl in *;
    try (repeat split; congruence).
  destruct (IH s2) as (Htq3 & Hps3 & Hid3). repeat split; congruence.
Qed.

(** Once the query of a pull has passed the validation, the table query of
    every state the pull goes through is that query, and the page size is the
    one taken from the settings. *)
Lemma pull_keeps_the_validated_query env fuel query queryId settings s size :
  validateQuery query = Fulfilled tt -> pageSizeOf settings = Fulfilled size ->
  tablePullQuery (snd (pull env fuel query queryId settings s)) = query /\
  pageSize (snd (pull env fuel query queryId settings s)) = size.
Proof.
  intros Hvalid Hsize. rewrite pull_run, Hvalid, Hsize.
  pose proof (pullAllPages_frame env fuel (startState env query queryId size s))
    as (Htq & Hps & _).
  rewrite Htq, Hps. unfold startState. rewrite setupQuery_run. auto.
Qed.

(** * Further properties of pull.js *)

(** ** The page size *)

(** X1. The page size of a pull is 50 when the settings are missing or
    their pageSize is null or undefined, the pageSize itself when it is a
    positive integer, and nothing else: it is always positive.  With any
    other pageSize (zero, a negative number, a string, ...) a pull of a
    supported query is rejected in the state it was called in, before any
    call to the remote table or the store. *)
Theorem page_size_is_positive_or_pull_fails env fuel query queryId settings s :
  (forall size,
     pageSizeOf settings = Fulfilled size <->
     (0 < size /\
      (settings = None /\ size = 50 \/
       (exists st, settings = Some st /\
          (settings_pageSize st = JUndefined /\ size = 50 \/
           settings_pageSize st = JNull /\ size = 50 \/
           settings_pageSize st = JNum size))))) /\
  (validateQuery query = Fulfilled tt ->
   (forall size, pageSizeOf settings <> Fulfilled size) ->
   pull env fuel query queryId settings s = (Rejected InvalidPageSize, s)).
Proof.
  split.
  - intros size. unfold pageSizeOf, defaultPageSize.
    destruct settings as [[v]|]; simpl.
    + assert (Hback : forall o : Outcome Z,
                (v = JUndefined -> o = Fulfilled 50) ->
                (v = JNull -> o = Fulfilled 50) ->
                (v = JNum size -> 0 < size -> o = Fulfilled size) ->
                0 < size /\
                (Some {| settings_pageSize := v |} = None /\ size = 50 \/
                 (exists st, Some {| settings_pageSize := v |} = Some st /\
                    (settings_pageSize st = JUndefined /\ size = 50 \/
                     settings_pageSize st = JNull /\ size = 50 \/
                     settings_pageSize st = JNum size))) ->
                o = Fulfilled size).
      { intros o Hu Hn Hi (Hpos & [[? _] | (st & Hst & Hcase)]); [discriminate|].
        injection Hst as <-. simpl in Hcase.
        destruct Hcase as [[Hv ->] | [[Hv ->] | Hv]]; auto. }
      split.
      * intros H.
        destruct v; try discriminate;
          try destruct (Z.ltb_spec 0 n); try discriminate;
          injection H as <-; (split; [lia|]); right;
          (eexists; split; [reflexivity|]); simpl; auto.
      * apply Hback; intros ->; try reflexivity.
        intros Hpos. apply Z.ltb_lt in Hpos. now rewrite Hpos.
    + split.
      * intros H. injection H as <-. split; [lia|]. now left.
      * intros (_ & [[_ ->] | (st & Hst & _)]); [reflexivity|discriminate].
  - intros Hvalid Hbad. rewrite pull_run, Hvalid.
    pose proof (pageSizeOf_settles settings) as Hset.
    destruct (pageSizeOf settings) as [size|e|] eqn:E.
    + now destruct (Hbad size).
    + unfold pageSizeOf in E. destruct settings as [[v]|]; simpl in E;
        [|discriminate].
      destruct v; try discriminate; try (now injection E as <-).
      destruct (0 <? n); [discriminate | now injection E as <-].
    + congruence.
Qed.

Lemma page_size_is_positive_or_pull_fails_witness :
  pull (tableServer threeRows 0) 4 todoQuery (Some "q"%string)
       (Some {| settings_pageSize := JNum 0 |}) idleManager
  = (Rejected InvalidPageSize, idleManager).
Proof.
  apply (proj2 (page_size_is_positive_or_pull_fails
                  (tableServer threeRows 0) 4 todoQuery (Some "q"%string)
                  (Some {| settings_pageSize := JNum 0 |}) idleManager)).
  - reflexivity.
  - intros size. vm_compute. discriminate.
Defined.

(** ** A page whose last record has no date *)

(** X2. [updateQueryForNextPage] is fulfilled exactly when the page has a
    last record whose updatedAt is a date; otherwise it throws and leaves
    the pull manager as it was.  It runs after the page has been processed:
    when the records of a page are classified without an error but its last
    record has no date, the pull is rejected only after the batches of the
    page were handed to [store.del] and [store.upsert] and [onPagePulled]
    has run. *)
Theorem page_is_applied_before_its_date_is_checked env fuel s :
  (forall page s0,
     fst (updateQueryForNextPage page s0) = Fulfilled tt <->
     exists record t,
       last page = Some record /\ PulledRecord.updatedAt record = JDate t) /\
  (forall page s0,
     fst (updateQueryForNextPage page s0) <> Fulfilled tt ->
     snd (updateQueryForNextPage page s0) = s0) /\
  (forall batches record,
     processAllRecords_loop (nextPending env s) (nextPage env s) [] []
       = Fulfilled batches ->
     last (nextPage env s) = Some record ->
     (forall t, PulledRecord.updatedAt record <> JDate t) ->
     pullAllPages env (S fuel) s
       = (Rejected UpdatedAtNotADate,
          after_onPagePulled
            (after_calls s (fetchCalls env s ++ applyCalls s batches)))).
Proof.
  split; [|split].
  - intros page s0. unfold updateQueryForNextPage.
    destruct (last page) as [r|]; simpl.
    + destruct (PulledRecord.updatedAt r) eqn:E; simpl;
        try (split; [discriminate | intros (r' & t' & Hr & Ht); congruence]).
      run. split; [eauto|]. intros _.
      destruct (t =? lastKnownUpdatedAt s0); reflexivity.
    + split; [discriminate | intros (r' & t' & Hr & _); discriminate].
  - intros page s0. unfold updateQueryForNextPage.
    destruct (last page) as [r|]; simpl; [|reflexivity].
    destruct (PulledRecord.updatedAt r); simpl; try reflexivity.
    run. destruct (t =? lastKnownUpdatedAt s0); simpl; congruence.
  - intros batches record Hloop Hlast Hdate.
    rewrite pullAllPages_step, pullPage_run, Hloop.
    assert (Hne : isPullComplete (nextPage env s) = false).
    { destruct (nextPage env s); [discriminate|reflexivity]. }
    rewrite Hne. unfold updateQueryForNextPage. rewrite Hlast.
    destruct (PulledRecord.updatedAt record) eqn:E; try reflexivity.
    now destruct (Hdate t).
Qed.

Lemma page_is_applied_before_its_date_is_checked_witness :
  pullAllPages (scriptedEnv [[liveRecord 1 5; undatedRecord 2]] [] 0) 3
               startedManager
  = (Rejected UpdatedAtNotADate,
     after_onPagePulled
       (after_calls startedManager
          (fetchCalls (scriptedEnv [[liveRecord 1 5; undatedRecord 2]] [] 0)
                      startedManager
           ++ applyCalls startedManager
                ([], [liveRecord 1 5; undatedRecord 2])))).
Proof.
  apply (proj2 (proj2 (page_is_applied_before_its_date_is_checked
                         (scriptedEnv [[liveRecord 1 5; undatedRecord 2]] [] 0)
                         2 startedManager))
           ([], [liveRecord 1 5; undatedRecord 2]) (undatedRecord 2)).
  - reflexivity.
  - reflexivity.
  - intros t. discriminate.
Defined.

(** ** What a pull takes from the pull manager *)

(** X3. A pull sets every variable of the pull manager before it reads it:
    for a supported query and a valid page size, what the pull does depends
    on the pull manager it starts in only through the pulltime table and the
    log of calls, not on the page size, cursor, queries or identity that an
    earlier pull has left. *)
Theorem pull_forgets_the_previous_session env fuel query queryId settings s1 s2 size :
  validateQuery query = Fulfilled tt ->
  pageSizeOf settings = Fulfilled size ->
  pulltime s1 = pulltime s2 -> calls s1 = calls s2 ->
  pull env fuel query queryId settings s1 = pull env fuel query queryId settings s2.
Proof.
  intros Hvalid Hsize Hrows Hcalls. rewrite !pull_run, Hvalid, Hsize.
  f_equal. unfold startState. rewrite !setupQuery_run. simpl.
  unfold loadedCursor, loadCalls. simpl. now rewrite Hrows, Hcalls.
Qed.

Lemma pull_forgets_the_previous_session_witness :
  pull (tableServer threeRows 0) 6 todoQuery (Some "q"%string) pagesOfTwo
       idleManager
  = pull (tableServer threeRows 0) 6 todoQuery (Some "q"%string) pagesOfTwo
         (mkPM 7 99 (Query.take 3 todoQuery) (Query.skip 4 todoQuery)
               (Some "other"%string) ∅ []).
Proof.
  apply (pull_forgets_the_previous_session
           (tableServer threeRows 0) 6 todoQuery (Some "q"%string) pagesOfTwo
           idleManager
           (mkPM 7 99 (Query.take 3 todoQuery) (Query.skip 4 todoQuery)
                 (Some "other"%string) ∅ []) 2);
    reflexivity.
Defined.

(** ** The page queries of a pull *)

Section PageQueries.

Variable env : Collaborators.

Lemma pageQueryFor_tracksCursor size cursor tableQuery pq queryId rows log :
  validateQuery tableQuery = Fulfilled tt ->
  pq = pageQueryFor tableQuery size cursor ->
  tracksCursor (mkPM size cursor tableQuery pq queryId rows log).
Proof.
  intros Hvalid ->. exists (Components.skip tableQuery). simpl. split.
  - unfold withSkip, pageQueryFor, copyQuery. reflexivity.
  - unfold validateQuery, Query.getComponents in Hvalid.
    destruct (Components.ordering tableQuery); [|discriminate].
    destruct (Components.skip tableQuery) as [n|]; simpl in *; [|lia].
    destruct (Z.eqb_spec n 0); [lia|discriminate].
Qed.

Lemma startState_tracksCursor query queryId size s :
  validateQuery query = Fulfilled tt ->
  tracksCursor (startState env query queryId size s).
Proof.
  intros Hvalid. unfold startState. rewrite setupQuery_run. simpl.
  now apply pageQueryFor_tracksCursor.
Qed.

Lemma pullPage_tracksCursor s :
  tracksCursor s -> tracksCursor (snd (pullPage env s)).
Proof.
  pose proof (pullPage_frame env s) as (Hps & Hcur & Htq & Hq & _).
  simpl in *. unfold tracksCursor. now rewrite Hps, Hcur, Htq, Hq.
Qed.

Lemma updateQueryForNextPage_tracksCursor page s :
  validateQuery (tablePullQuery s) = Fulfilled tt ->
  tracksCursor s -> tracksCursor (snd (updateQueryForNextPage page s)).
Proof.
  intros Hvalid (k & Hq & Hk). unfold updateQueryForNextPage.
  destruct (last page) as [r|]; [|now exists k].
  destruct (PulledRecord.updatedAt r); try (now exists k).
  run. destruct (t =? lastKnownUpdatedAt s); simpl.
  - exists (Some (offset (pagePullQuery s) + Z.of_nat (length page))). simpl.
    split.
    + rewrite Hq. reflexivity.
    + rewrite Hq. unfold offset, withSkip. simpl. lia.
  - destruct s as [ps cur tq pq i rows cs]. simpl in *.
    now apply pageQueryFor_tracksCursor.
Qed.

Lemma tracksCursor_isPageQueryOf s :
  validateQuery (tablePullQuery s) = Fulfilled tt ->
  tracksCursor s ->
  isPageQueryOf (tablePullQuery s) (pageSize s) (pagePullQuery s).
Proof.
  intros Hvalid (k & -> & Hk).
  unfold validateQuery, Query.getComponents in Hvalid.
  unfold isPageQueryOf, pageFilter, withSkip, pageQueryFor, copyQuery, offset.
  simpl. unfold Query.getComponents, Query.setComponents.
  destruct (tablePullQuery s) as [tbl flt ord sk tk sel cnt]; simpl in *.
  destruct ord; [|discriminate].
  destruct (truthy_num sk); [discriminate|].
  destruct (truthy_num tk); [discriminate|].
  destruct sel; [|discriminate]. destruct cnt; [discriminate|].
  repeat split; try assumption.
  exists (lastKnownUpdatedAt s). now destruct flt.
Qed.

Lemma fetchQueries_app evs1 evs2 :
  fetchQueries (evs1 ++ evs2) = fetchQueries evs1 ++ fetchQueries evs2.
Proof.
  induction evs1 as [|e evs1 IH]; simpl; [reflexivity|].
  destruct e; simpl; now rewrite IH.
Qed.

Lemma pullPage_fetchQueries s :
  exists evs,
    calls (snd (pullPage env s)) = calls s ++ evs /\
    fetchQueries evs = [pagePullQuery s].
Proof.
  rewrite pullPage_run.
  destruct (processAllRecords_loop _ _ [] []) as [b|e|]; simpl.
  - rewrite calls_after_onPagePulled. simpl. rewrite <- app_assoc.
    eexists. split; [reflexivity|]. simpl. f_equal.
    unfold checkpointCalls. simpl. destruct (pullQueryId s) as [i|]; [|reflexivity].
    destruct (String.eqb i EmptyString); reflexivity.
  - eexists. split; [reflexivity|]. reflexivity.
  - eexists. split; [reflexivity|]. reflexivity.
Qed.

Lemma pullAllPages_pageQueries fuel : forall s,
  validateQuery (tablePullQuery s) = Fulfilled tt ->
  tracksCursor s ->
  tracksCursor (snd (pullAllPages env fuel s)) /\
  exists evs,
    calls (snd (pullAllPages env fuel s)) = calls s ++ evs /\
    Forall (isPageQueryOf (tablePullQuery s) (pageSize s)) (fetchQueries evs).
Proof.
  induction fuel as [|fuel IH]; intros s Hvalid Hinv.
  - simpl. split; [assumption|]. exists []. rewrite app_nil_r. auto.
  - rewrite pullAllPages_step.
    pose proof (tracksCursor_isPageQueryOf s Hvalid Hinv) as Hshape.
    pose proof (pullPage_tracksCursor s Hinv) as Hinv1.
    pose proof (pullPage_frame env s) as (Hps & _ & Htq & _ & _).
    destruct (pullPage_fetchQueries s) as (evs1 & Hc1 & Hq1).
    destruct (pullPage env s) as [[page|e|] s1]; simpl in *;
      try (split; [assumption|]; exists evs1; rewrite Hq1; auto).
    destruct (isPullComplete page); simpl;
      try (split; [assumption|]; exists evs1; rewrite Hq1; auto).
    assert (Hvalid1 : validateQuery (tablePullQuery s1) = Fulfilled tt)
      by now rewrite Htq.
    pose proof (updateQueryForNextPage_tracksCursor page s1 Hvalid1 Hinv1) as Hinv2.
    pose proof (updateQueryForNextPage_frame page s1)
      as (Hps2 & Htq2 & _ & _ & Hc2).
    destruct (updateQueryForNextPage page s1) as [[[]|e|] s2]; simpl in *;
      try (split; [assumption|]; exists evs1; rewrite Hc2, Hq1; auto).
    destruct (IH s2) as (Hinv3 & evs2 & Hc3 & Hall); [congruence|assumption|].
    split; [assumption|]. exists (evs1 ++ evs2).
    rewrite Hc3, Hc2, Hc1, app_assoc. split; [reflexivity|].
    rewrite fetchQueries_app, Hq1. constructor; [assumption|].
    now rewrite Htq2, Htq, Hps2, Hps in Hall.
Qed.

End PageQueries.

(** X4. Every query that a pull sends to the remote table is the query of
    the caller turned into a page query: the same table, the filter of the
    caller (if any) and [updatedAt >= cursor] for some cursor, ascending
    order on updatedAt alone, a take of the page size, a skip that is not
    negative, no selection and no total count. *)
Theorem every_fetch_is_a_page_of_the_query env fuel query queryId settings s size :
  validateQuery query = Fulfilled tt ->
  pageSizeOf settings = Fulfilled size ->
  Forall (isPageQueryOf query size)
    (fetchQueries
       (drop (length (calls s))
             (calls (snd (pull env fuel query queryId settings s))))).
Proof.
  intros Hvalid Hsize. rewrite pull_run, Hvalid, Hsize.
  destruct (pullAllPages_pageQueries env fuel
              (startState env query queryId size s))
    as (_ & evs & Hcalls & Hall).
  { unfold startState. now rewrite setupQuery_run. }
  { now apply startState_tracksCursor. }
  destruct (startState_calls env query queryId size s) as (evs0 & Hc0 & Hf0 & _).
  rewrite Hcalls, Hc0, <- app_assoc, drop_app_length, fetchQueries_app.
  assert (Hq0 : fetchQueries evs0 = []).
  { clear -Hf0. induction evs0 as [|e evs0 IH]; [reflexivity|].
    destruct e; simpl in *; auto; discriminate. }
  rewrite Hq0. simpl.
  unfold startState in Hall. rewrite setupQuery_run in Hall. exact Hall.
Qed.

Lemma every_fetch_is_a_page_of_the_query_witness :
  Forall (isPageQueryOf todoQuery 2)
    (fetchQueries
       (drop (length (calls idleManager))
             (calls (snd (pull (tableServer threeRows 0) 6 todoQuery
                            (Some "q"%string) pagesOfTwo idleManager))))).
Proof.
  apply (every_fetch_is_a_page_of_the_query
           (tableServer threeRows 0) 6 todoQuery (Some "q"%string) pagesOfTwo
           idleManager 2); reflexivity.
Defined.

(** ** Where the cursor and the checkpoint end up *)

Section Course.

Variable env : Collaborators.

Lemma updateQueryForNextPage_cursorStep page s :
  fst (updateQueryForNextPage page s) = Fulfilled tt ->
  lastKnownUpdatedAt (snd (updateQueryForNextPage page s))
    = cursorStep (lastKnownUpdatedAt s) page.
Proof.
  unfold updateQueryForNextPage, cursorStep.
  destruct (last page) as [r|]; [|discriminate].
  destruct (PulledRecord.updatedAt r); try discriminate.
  run. destruct (Z.eqb_spec t (lastKnownUpdatedAt s)); simpl; congruence.
Qed.

(** A run of [pullPage] that is not rejected has applied its page. *)
Lemma pullPage_applied s :
  (forall e, fst (pullPage env s) <> Rejected e) ->
  exists batches,
    processAllRecords_loop (nextPending env s) (nextPage env s) [] []
      = Fulfilled batches /\
    pullPage env s =
      (Fulfilled (nextPage env s),
       after_onPagePulled
         (after_calls s (fetchCalls env s ++ applyCalls s batches))).
Proof.
  intros Hok. rewrite pullPage_run in *.
  pose proof (processAllRecords_loop_settles (nextPending env s) (nextPage env s)
                [] []) as Hset.
  destruct (processAllRecords_loop _ _ [] []) as [b|e|]; simpl in *.
  - eauto.
  - now destruct (Hok e).
  - congruence.
Qed.

Lemma pullAllPages_cursorAfter fuel : forall s,
  (forall e, fst (pullAllPages env fuel s) <> Rejected e) ->
  exists evs,
    calls (snd (pullAllPages env fuel s)) = calls s ++ evs /\
    lastKnownUpdatedAt (snd (pullAllPages env fuel s))
      = cursorAfter (fetchedPages evs) (lastKnownUpdatedAt s) /\
    AppliedPages evs.
Proof.
  induction fuel as [|fuel IH]; intros s Hok.
  - exists []. simpl. rewrite app_nil_r. repeat split. constructor.
  - rewrite pullAllPages_step in *.
    destruct (pullPage_applied s) as (b & Hloop & Hpage).
    { intros e He. apply (Hok e). destruct (pullPage env s) as [o s1].
      simpl in He. now subst o. }
    rewrite Hpage in *.
    set (s1 := after_onPagePulled
                 (after_calls s (fetchCalls env s ++ applyCalls s b))) in *.
    assert (Hcur1 : lastKnownUpdatedAt s1 = lastKnownUpdatedAt s)
      by apply (after_onPagePulled_frame (after_calls s _)).
    assert (Hc1 : calls s1
                  = calls s ++ fetchCalls env s ++ applyCalls s b
                      ++ checkpointCalls s).
    { unfold s1. rewrite calls_after_onPagePulled. simpl.
      now rewrite <- !app_assoc. }
    assert (Hblock : forall rest, AppliedPages rest ->
              AppliedPages (fetchCalls env s ++ applyCalls s b
                              ++ checkpointCalls s ++ rest)).
    { intros rest Hrest.
      apply (applied_page (pagePullQuery s) (nextPage env s) (nextPending env s)
               b (checkpointCalls s) rest Hloop); [|exact Hrest].
      unfold checkpointCalls. destruct (pullQueryId s) as [i|]; [|now left].
      destruct (truthy_str (Some i)); [right; eauto | now left]. }
    assert (Hpages : forall rest,
              fetchedPages (fetchCalls env s ++ applyCalls s b
                              ++ checkpointCalls s ++ rest)
              = nextPage env s :: fetchedPages rest).
    { intros rest. simpl. f_equal.
      now rewrite fetchedPages_app, fetchedPages_checkpointCalls. }
    destruct (isPullComplete (nextPage env s)) eqn:Hdone; cbn [fst snd] in *.
    + apply isPullComplete_spec in Hdone.
      exists (fetchCalls env s ++ applyCalls s b ++ checkpointCalls s ++ []).
      rewrite Hpages, app_nil_r. split; [exact Hc1|]. split.
      * rewrite Hcur1, Hdone. reflexivity.
      * rewrite <- (app_nil_r (checkpointCalls s)). apply Hblock. constructor.
    + pose proof (updateQueryForNextPage_frame (nextPage env s) s1)
        as (_ & _ & _ & _ & Hc2).
      pose proof (updateQueryForNextPage_cursorStep (nextPage env s) s1) as Hstep.
      pose proof (updateQueryForNextPage_settles (nextPage env s) s1) as Hset.
      destruct (updateQueryForNextPage (nextPage env s) s1) as [[[]|e|] s2];
        cbn [fst snd] in *; [|now destruct (Hok e)|congruence].
      destruct (IH s2 Hok) as (evs2 & Hc3 & Hcur3 & Hlog).
      exists (fetchCalls env s ++ applyCalls s b ++ checkpointCalls s ++ evs2).
      rewrite Hpages. split; [|split].
      * rewrite Hc3, Hc2, Hc1, <- !app_assoc. reflexivity.
      * rewrite Hcur3, Hstep, Hcur1 by reflexivity. reflexivity.
      * now apply Hblock.
Qed.

Lemma pullAllPages_checkpointRow fuel : forall s i,
  pullQueryId s = Some i -> truthy_str (Some i) = true ->
  fst (pullAllPages env fuel s) = Fulfilled tt ->
  pulltime (snd (pullAllPages env fuel s))
    !! i = Some (checkpointRow (snd (pullAllPages env fuel s)) i).
Proof.
  induction fuel as [|fuel IH]; intros s i Hid Htruthy Hdone; [discriminate|].
  rewrite pullAllPages_step in *.
  destruct (pullPage_incremental env s i Hid Htruthy) as (b & Hpage).
  { intros e He. destruct (pullPage env s) as [o s1]. simpl in He. subst o.
    discriminate. }
  rewrite Hpage in *.
  destruct (isPullComplete (nextPage env s)); simpl in *.
  - apply lookup_insert_eq.
  - pose proof (updateQueryForNextPage_frame (nextPage env s)
                  (after_checkpoint
                     (after_calls s (fetchCalls env s ++ applyCalls s b)) i))
      as (_ & _ & Hid2 & _ & _).
    destruct (updateQueryForNextPage _ _) as [[[]|e|] s2]; simpl in *;
      try discriminate.
    apply IH; [congruence | assumption | assumption].
Qed.

End Course.

Lemma loadedCursor_loadedDate env s :
  loadedCursor env s = loadedDate (timezoneOffset env) (pulltime s) (pullQueryId s).
Proof. reflexivity. Qed.

Lemma drop_calls_startState env query queryId size s evs :
  drop (length (calls s))
       (calls (startState env query queryId size s) ++ evs)
  = loadCalls (mkPM size (lastKnownUpdatedAt s) (copyQuery query)
                    (pagePullQuery s) queryId (pulltime s) (calls s))
      ++ evs.
Proof.
  unfold startState. rewrite setupQuery_run. simpl.
  now rewrite <- app_assoc, drop_app_length.
Qed.

Lemma fetchedPages_loadCalls s : fetchedPages (loadCalls s) = [].
Proof.
  unfold loadCalls. destruct (pullQueryId s) as [i|]; [|reflexivity].
  destruct (truthy_str (Some i)); reflexivity.
Qed.

(** X5. In a pull that is not rejected the cursor ends on the date of the
    last record of the last page that held records (on the date loaded at
    the start when no page held any): page after page, the cursor becomes
    the date of the last record of the page.  A fulfilled pull with a
    non-empty identity leaves in the pulltime table, under that identity,
    the name of the table of the query and that final cursor. *)
Theorem pull_ends_on_the_date_of_the_last_record
    env fuel query queryId settings s size :
  validateQuery query = Fulfilled tt ->
  pageSizeOf settings = Fulfilled size ->
  let run := pull env fuel query queryId settings s in
  let pages := fetchedPages (drop (length (calls s)) (calls (snd run))) in
  let loaded := loadedDate (timezoneOffset env) (pulltime s) queryId in
  ((forall e, fst run <> Rejected e) ->
   lastKnownUpdatedAt (snd run) = cursorAfter pages loaded) /\
  (forall i,
     queryId = Some i -> truthy_str (Some i) = true ->
     fst run = Fulfilled tt ->
     pulltime (snd run) !! i
       = Some (mkRow i (Components.table query) (cursorAfter pages loaded))).
Proof.
  intros Hvalid Hsize. cbv zeta. rewrite pull_run, Hvalid, Hsize.
  set (start := startState env query queryId size s).
  assert (Hstart : lastKnownUpdatedAt start
                   = loadedDate (timezoneOffset env) (pulltime s) queryId).
  { unfold start, startState. rewrite setupQuery_run. reflexivity. }
  assert (Hcourse : (forall e, fst (pullAllPages env fuel start) <> Rejected e) ->
            lastKnownUpdatedAt (snd (pullAllPages env fuel start))
            = cursorAfter
                (fetchedPages (drop (length (calls s))
                                 (calls (snd (pullAllPages env fuel start)))))
                (loadedDate (timezoneOffset env) (pulltime s) queryId)).
  { intros Hok.
    destruct (pullAllPages_cursorAfter env fuel start Hok) as (evs & Hc & Hcur & _).
    rewrite Hc. unfold start at 2. rewrite drop_calls_startState.
    rewrite fetchedPages_app, fetchedPages_loadCalls. simpl.
    now rewrite Hcur, Hstart. }
  split; [exact Hcourse|].
  intros i -> Htruthy Hdone.
  rewrite <- Hcourse by (intros e; rewrite Hdone; discriminate).
  rewrite (pullAllPages_checkpointRow env fuel start i); try assumption.
  - assert (Htable : Components.table
                       (pagePullQuery (snd (pullAllPages env fuel start)))
                     = Components.table query).
    { destruct (pullAllPages_pageQueries env fuel start) as ((k & Hq & _) & _).
      { unfold start, startState. now rewrite setupQuery_run. }
      { now apply startState_tracksCursor. }
      rewrite Hq. simpl.
      pose proof (pullAllPages_frame env fuel start) as (Htq & _ & _).
      simpl in Htq. rewrite Htq. unfold start, startState.
      rewrite setupQuery_run. reflexivity. }
    unfold checkpointRow. now rewrite Htable.
  - unfold start, startState. now rewrite setupQuery_run.
Qed.

Lemma pull_ends_on_the_date_of_the_last_record_witness :
  let run := pull (tableServer threeRows 0) 6 todoQuery (Some "q"%string)
                  pagesOfTwo idleManager in
  lastKnownUpdatedAt (snd run) = 20 /\
  pulltime (snd run) !! "q"%string = Some (rowOfQ 20).
Proof.
  cbv zeta.
  pose proof (pull_ends_on_the_date_of_the_last_record
                (tableServer threeRows 0) 6 todoQuery (Some "q"%string)
                pagesOfTwo idleManager 2 eq_refl eq_refl) as [Hcursor Hrow].
  split.
  - rewrite Hcursor by (intros e; vm_compute; discriminate).
    vm_compute. reflexivity.
  - rewrite (Hrow "q"%string eq_refl eq_refl) by (vm_compute; reflexivity).
    vm_compute. reflexivity.
Defined.

(** X6. What a pull hands to the store is what it has fetched, page by
    page.  The calls of a pull that is not rejected are the lookup of the
    pulltime row, if any, and then one block per page: the read, one
    question to the operation table about exactly the records read, then
    [store.del] and only then [store.upsert], both on the table of the page
    query and with the batches that the classification of the records read
    gives, then the upsert of the pulltime row, if any. *)
Theorem pull_applies_what_it_fetches env fuel query queryId settings s :
  (forall e, fst (pull env fuel query queryId settings s) <> Rejected e) ->
  exists lookup pages,
    drop (length (calls s)) (calls (snd (pull env fuel query queryId settings s)))
      = lookup ++ pages /\
    (lookup = [] \/ exists i row, lookup = [PulltimeLookup i row]) /\
    AppliedPages pages.
Proof.
  rewrite pull_run. intros Hok.
  pose proof (validateQuery_settles query) as Hv.
  pose proof (pageSizeOf_settles settings) as Hp.
  destruct (validateQuery query) as [[]|e|]; [|now destruct (Hok e)|congruence].
  destruct (pageSizeOf settings) as [size|e|]; [|now destruct (Hok e)|congruence].
  destruct (pullAllPages_cursorAfter env fuel
              (startState env query queryId size s) Hok)
    as (evs & Hc & _ & Hlog).
  rewrite Hc, drop_calls_startState.
  eexists _, evs. split; [reflexivity|]. split; [|exact Hlog].
  unfold loadCalls. simpl. destruct queryId as [i|]; [|now left].
  destruct (String.eqb i EmptyString); simpl; [now left | right; eauto].
Qed.

Lemma pull_applies_what_it_fetches_witness :
  exists lookup pages,
    drop (length (calls idleManager))
         (calls (snd (pull (tableServer threeRows 0) 6 todoQuery
                        (Some "q"%string) pagesOfTwo idleManager)))
      = lookup ++ pages /\
    (lookup = [] \/ exists i row, lookup = [PulltimeLookup i row]) /\
    AppliedPages pages.
Proof.
  apply (pull_applies_what_it_fetches
           (tableServer threeRows 0) 6 todoQuery (Some "q"%string) pagesOfTwo
           idleManager).
  intros e. vm_compute. discriminate.
Defined.

(** ** Pages with pending operations *)

Section Blocked.

Variable env : Collaborators.
Hypothesis Hpending :
  forall history tableName records,
    pagePendingOperationsOf env history tableName records <> [].

Lemma updateQueryForNextPage_errors page s :
  fst (updateQueryForNextPage page s) <> Rejected DeletedPropertyMissing.
Proof.
  unfold updateQueryForNextPage.
  destruct (last page) as [r|]; [|discriminate].
  destruct (PulledRecord.updatedAt r); try discriminate.
  run. destruct (t =? lastKnownUpdatedAt s); discriminate.
Qed.

Lemma Forall_appliesNothing_checkpointCalls s :
  Forall (fun e => appliesNothing e = true) (checkpointCalls s).
Proof.
  unfold checkpointCalls. destruct (pullQueryId s) as [i|]; [|constructor].
  destruct (truthy_str (Some i)); repeat constructor.
Qed.

Lemma pullPage_blocked s :
  pullPage env s =
  (Fulfilled (nextPage env s),
   after_onPagePulled (after_calls s (fetchCalls env s ++ applyCalls s ([], [])))).
Proof.
  rewrite pullPage_run.
  now rewrite processAllRecords_loop_pending by apply Hpending.
Qed.

Lemma pullAllPages_blocked fuel : forall s,
  fst (pullAllPages env fuel s) <> Rejected DeletedPropertyMissing /\
  exists evs,
    calls (snd (pullAllPages env fuel s)) = calls s ++ evs /\
    Forall (fun e => appliesNothing e = true) evs.
Proof.
  induction fuel as [|fuel IH]; intros s.
  - simpl. split; [discriminate|]. exists []. now rewrite app_nil_r.
  - rewrite pullAllPages_step, pullPage_blocked.
    set (s1 := after_onPagePulled
                 (after_calls s (fetchCalls env s ++ applyCalls s ([], [])))).
    assert (Hc1 : exists evs1, calls s1 = calls s ++ evs1 /\
                    Forall (fun e => appliesNothing e = true) evs1).
    { unfold s1. rewrite calls_after_onPagePulled. simpl.
      rewrite <- app_assoc. eexists. split; [reflexivity|]. simpl.
      repeat (constructor; [reflexivity|]).
      apply Forall_appliesNothing_checkpointCalls. }
    destruct Hc1 as (evs1 & Hc1 & Hall1).
    destruct (isPullComplete (nextPage env s)); cbn [fst snd].
    + split; [discriminate|]. eauto.
    + pose proof (updateQueryForNextPage_frame (nextPage env s) s1)
        as (_ & _ & _ & _ & Hc2).
      pose proof (updateQueryForNextPage_errors (nextPage env s) s1) as Herr.
      destruct (updateQueryForNextPage (nextPage env s) s1) as [[[]|e|] s2];
        cbn [fst snd] in *.
      * destruct (IH s2) as (Hok & evs2 & Hc3 & Hall2). split; [exact Hok|].
        exists (evs1 ++ evs2). rewrite Hc3, Hc2, Hc1, app_assoc.
        split; [reflexivity|]. now apply Forall_app.
      * split; [exact Herr|]. exists evs1. now rewrite Hc2.
      * split; [discriminate|]. exists evs1. now rewrite Hc2.
Qed.

End Blocked.

(** X7. Pending operations block the pages, not the pull.  When the
    operation table reports pending operations for every page, a pull hands
    no record to the store (every [store.del] and [store.upsert] gets an
    empty batch), is never rejected for a missing deleted flag, and, unless
    it is rejected for another reason, still moves its cursor past the pages
    it has not applied: to the date of the last record of the last page that
    held records. *)
Theorem pending_operations_block_the_pages_not_the_pull
    env fuel query queryId settings s :
  (forall history tableName records,
     pagePendingOperationsOf env history tableName records <> []) ->
  let run := pull env fuel query queryId settings s in
  let new := drop (length (calls s)) (calls (snd run)) in
  Forall (fun e => appliesNothing e = true) new /\
  fst run <> Rejected DeletedPropertyMissing /\
  (forall size,
     validateQuery query = Fulfilled tt -> pageSizeOf settings = Fulfilled size ->
     (forall e, fst run <> Rejected e) ->
     lastKnownUpdatedAt (snd run)
       = cursorAfter (fetchedPages new)
           (loadedDate (timezoneOffset env) (pulltime s) queryId)).
Proof.
  intros Hpending. cbv zeta. rewrite pull_run.
  assert (Hquiet : Forall (fun e => appliesNothing e = true)
                     (drop (length (calls s)) (calls s))).
  { rewrite drop_all. constructor. }
  destruct (validateQuery query) as [[]|e|] eqn:Hv.
  - destruct (pageSizeOf settings) as [size|e|] eqn:Hp.
    + destruct (pullAllPages_blocked env Hpending fuel
                  (startState env query queryId size s))
        as (Hok & evs & Hc & Hall).
      split; [|split; [exact Hok|]].
      * rewrite Hc, drop_calls_startState. apply Forall_app. split; [|exact Hall].
        unfold loadCalls. simpl. destruct queryId as [i|]; [|constructor].
        destruct (String.eqb i EmptyString); repeat constructor.
      * intros size' _ Hsize' Hrun. injection Hsize' as <-.
        destruct (pullAllPages_cursorAfter env fuel
                    (startState env query queryId size s) Hrun)
          as (evs' & Hc' & Hcur & _).
        rewrite Hc', drop_calls_startState, fetchedPages_app,
          fetchedPages_loadCalls. simpl. rewrite Hcur.
        unfold startState. now rewrite setupQuery_run.
    + split; [exact Hquiet|]. split; [|discriminate].
      unfold pageSizeOf in Hp. destruct settings as [[v]|]; simpl in Hp;
        [|discriminate].
      destruct v; try discriminate; try (injection Hp as <-; discriminate).
      destruct (0 <? n); [discriminate|]. injection Hp as <-. discriminate.
    + split; [exact Hquiet|]. split; discriminate.
  - split; [exact Hquiet|]. split; [|discriminate].
    pose proof (validateQuery_cases query) as Hcases. rewrite Hv in Hcases.
    destruct (usesUnsupportedOperation query); [|discriminate].
    destruct Hcases as (e' & He' & Hk). injection He' as <-.
    intros Heq. injection Heq as ->. discriminate.
  - split; [exact Hquiet|]. split; discriminate.
Qed.

Lemma pending_operations_block_the_pages_not_the_pull_witness :
  let run := pull (scriptedEnv [[liveRecord 1 5; unflaggedRecord 2 9]]
                               [someOperation] 0)
                  4 todoQuery (Some "q"%string) None idleManager in
  Forall (fun e => appliesNothing e = true)
         (drop (length (calls idleManager)) (calls (snd run))) /\
  fst run <> Rejected DeletedPropertyMissing /\
  lastKnownUpdatedAt (snd run) = 9.
Proof.
  cbv zeta.
  pose proof (pending_operations_block_the_pages_not_the_pull
                (scriptedEnv [[liveRecord 1 5; unflaggedRecord 2 9]]
                             [someOperation] 0)
                4 todoQuery (Some "q"%string) None idleManager
                ltac:(intros; discriminate)) as (Hnothing & Hflag & Hcursor).
  split; [exact Hnothing|]. split; [exact Hflag|].
  rewrite (Hcursor 50 eq_refl eq_refl) by (intros e; vm_compute; discriminate).
  vm_compute. reflexivity.
Defined.

(** ** Pulling a table that does not change *)

Lemma StronglySorted_filter {A} (R : A -> A -> Prop) (f : A -> bool) l :
  StronglySorted R l -> StronglySorted R (List.filter f l).
Proof.
  induction 1 as [|x l Hl IH Hx]; simpl; [constructor|].
  destruct (f x); [|exact IH]. constructor; [exact IH|].
  rewrite Forall_forall in *. intros y Hy.
  apply list_elem_of_In, filter_In in Hy as [Hy _].
  apply Hx. now apply list_elem_of_In.
Qed.

Lemma StronglySorted_drop {A} (R : A -> A -> Prop) n (l : list A) :
  StronglySorted R l -> StronglySorted R (drop n l).
Proof.
  intros Hl. rewrite <- (take_drop n l) in Hl.
  now apply StronglySorted_app_1_r in Hl.
Qed.

Section StaticTable.

Variable holds : string -> PulledRecord.t -> bool.
Variable rows : list PulledRecord.t.
Variable env : Collaborators.
Hypothesis Hserves : servesTable holds rows env.
Hypothesis Hsorted : StronglySorted notLater rows.

Lemma satisfiesQuery_pageQuery k tableQuery size cursor record :
  satisfiesQuery holds (withSkip k (pageQueryFor tableQuery size cursor)) record
  = satisfiesQuery holds tableQuery record && updatedAtGe cursor record.
Proof.
  unfold satisfiesQuery, withSkip, pageQueryFor, copyQuery. simpl.
  unfold Query.getComponents, Query.setComponents.
  now destruct (Components.filters tableQuery).
Qed.

Lemma remainingRows_sorted s : StronglySorted notLater (remainingRows holds rows s).
Proof. now apply StronglySorted_drop, StronglySorted_filter. Qed.

Lemma nextPage_remainingRows s :
  tracksCursor s ->
  nextPage env s = take (Z.to_nat (pageSize s)) (remainingRows holds rows s).
Proof.
  intros (k & Hq & _). unfold nextPage, remainingRows.
  rewrite Hserves. unfold answerOf. now rewrite Hq.
Qed.

(** After the update of the query, the rows that the page did not reach
    are still to come. *)
Lemma updateQueryForNextPage_remainingRows s s1 record :
  validateQuery (tablePullQuery s) = Fulfilled tt ->
  tracksCursor s ->
  pagePullQuery s1 = pagePullQuery s ->
  lastKnownUpdatedAt s1 = lastKnownUpdatedAt s ->
  tablePullQuery s1 = tablePullQuery s -> pageSize s1 = pageSize s ->
  fst (updateQueryForNextPage (nextPage env s) s1) = Fulfilled tt ->
  record ∈ remainingRows holds rows s ->
  record ∈ nextPage env s \/
  record ∈ remainingRows holds rows
             (snd (updateQueryForNextPage (nextPage env s) s1)).
Proof.
  intros Hvalid Hinv Hq1 Hcur1 Htq1 Hps1 Hdone Hin.
  rewrite (nextPage_remainingRows s Hinv) in *.
  set (n := Z.to_nat (pageSize s)) in *.
  set (rem := remainingRows holds rows s) in *.
  rewrite <- (take_drop n rem) in Hin. apply elem_of_app in Hin as [Hin|Hin];
    [now left|right].
  pose proof (remainingRows_sorted s) as Hrem. fold rem in Hrem.
  rewrite <- (take_drop n rem) in Hrem.
  destruct Hinv as (k & Hq & Hk).
  unfold updateQueryForNextPage in *.
  destruct (last (take n rem)) as [lr|] eqn:Hlast; [|discriminate].
  destruct (PulledRecord.updatedAt lr) as [| | | | |t|] eqn:Hdate;
    try discriminate.
  apply last_Some_elem_of in Hlast.
  revert Hdone. run. rewrite Hcur1.
  destruct (Z.eqb_spec t (lastKnownUpdatedAt s)) as [Heq|Hne]; intros _; simpl.
  - unfold remainingRows. simpl. rewrite Hq1.
    replace (List.filter _ rows)
      with (List.filter (satisfiesQuery holds (pagePullQuery s)) rows)
      by (unfold satisfiesQuery; reflexivity).
    replace (Z.to_nat _)
      with (Z.to_nat (offset (pagePullQuery s)) + length (take n rem))%nat.
    + rewrite <- drop_drop. fold (remainingRows holds rows s). fold rem.
      rewrite length_take.
      destruct (decide (n <= length rem)%nat) as [Hle|Hgt].
      * now rewrite Nat.min_l by lia.
      * rewrite drop_ge in Hin by lia. now apply elem_of_nil in Hin.
    + unfold offset at 2. simpl. rewrite Hq. unfold offset, withSkip. simpl.
      destruct k as [m|]; simpl in *; lia.
  - unfold remainingRows. simpl. rewrite Htq1, Hps1.
    assert (Hoff : offset (pageQueryFor (tablePullQuery s) (pageSize s) t) = 0).
    { unfold validateQuery, Query.getComponents in Hvalid.
      unfold offset, pageQueryFor, copyQuery. simpl.
      unfold Query.getComponents, Query.setComponents.
      destruct (Components.ordering (tablePullQuery s)); [|discriminate].
      destruct (Components.skip (tablePullQuery s)) as [m|]; simpl in *;
        [|reflexivity].
      destruct (Z.eqb_spec m 0); [assumption|discriminate]. }
    fold (pageQueryFor (tablePullQuery s) (pageSize s) t).
    rewrite Hoff. simpl.
    assert (Hrec : record ∈ rem).
    { rewrite <- (take_drop n rem). apply elem_of_app. now right. }
    unfold rem, remainingRows in Hrec.
    apply subseteq_drop, list_elem_of_In, filter_In in Hrec as [Hrows Hsat].
    apply list_elem_of_In, filter_In. split; [exact Hrows|].
    rewrite Hq, satisfiesQuery_pageQuery in Hsat.
    apply andb_prop in Hsat as [Hbase Hge].
    change (satisfiesQuery holds
              (withSkip (Components.skip (tablePullQuery s))
                 (pageQueryFor (tablePullQuery s) (pageSize s) t)) record = true).
    rewrite satisfiesQuery_pageQuery, Hbase. simpl.
    pose proof (StronglySorted_app_1_elem_of _ _ _ _ _ Hrem Hlast Hin) as Hord.
    unfold updatedAtGe in *.
    destruct (PulledRecord.updatedAt record) as [| | | | |tr|] eqn:Hr;
      try discriminate.
    apply Z.leb_le. now apply (Hord t tr).
Qed.

End StaticTable.

Section StaticPull.

Variable holds : string -> PulledRecord.t -> bool.
Variable rows : list PulledRecord.t.
Variable env : Collaborators.
Hypothesis Hserves : servesTable holds rows env.
Hypothesis Hsorted : StronglySorted notLater rows.

Lemma pullAllPages_reaches_remainingRows fuel : forall s,
  validateQuery (tablePullQuery s) = Fulfilled tt ->
  tracksCursor s -> 0 < pageSize s ->
  fst (pullAllPages env fuel s) = Fulfilled tt ->
  exists evs,
    calls (snd (pullAllPages env fuel s)) = calls s ++ evs /\
    forall record,
      record ∈ remainingRows holds rows s ->
      exists page, page ∈ fetchedPages evs /\ record ∈ page.
Proof.
  induction fuel as [|fuel IH]; intros s Hvalid Hinv Hsize Hdone; [discriminate|].
  rewrite pullAllPages_step in *.
  destruct (pullPage_calls env s) as (evs1 & Hc1 & Hp1 & _).
  pose proof (pullPage_frame env s) as (Hps1 & Hcur1 & Htq1 & Hq1 & _).
  pose proof (pullPage_tracksCursor env s Hinv) as Hinv1.
  destruct (pullPage_applied env s) as (b & _ & Hpage).
  { intros e He. destruct (pullPage env s) as [o s1]. simpl in He. subst o.
    discriminate. }
  rewrite Hpage in *. cbn [fst snd] in *.
  set (s1 := after_onPagePulled _) in *.
  destruct (isPullComplete (nextPage env s)) eqn:Hcomplete; cbn [fst snd] in *.
  - exists evs1. split; [exact Hc1|]. intros record Hin.
    apply isPullComplete_spec in Hcomplete.
    rewrite (nextPage_remainingRows holds rows env Hserves s Hinv) in Hcomplete.
    apply take_nil_inv in Hcomplete as [Hzero|Hnil]; [lia|].
    rewrite Hnil in Hin. now apply elem_of_nil in Hin.
  - assert (Hvalid1 : validateQuery (tablePullQuery s1) = Fulfilled tt)
      by now rewrite Htq1.
    pose proof (updateQueryForNextPage_tracksCursor (nextPage env s) s1
                  Hvalid1 Hinv1) as Hinv2.
    pose proof (updateQueryForNextPage_frame (nextPage env s) s1)
      as (Hps2 & Htq2 & _ & _ & Hc2).
    pose proof (updateQueryForNextPage_remainingRows holds rows env Hserves
                  Hsorted s s1) as Hstep.
    destruct (updateQueryForNextPage (nextPage env s) s1) as [[[]|e|] s2];
      cbn [fst snd] in *; try discriminate.
    destruct (IH s2) as (evs2 & Hc3 & Hreach);
      [congruence | assumption | lia | assumption |].
    exists (evs1 ++ evs2). rewrite Hc3, Hc2, Hc1, app_assoc.
    split; [reflexivity|]. intros record Hin.
    rewrite fetchedPages_app, Hp1.
    destruct (Hstep record Hvalid Hinv Hq1 Hcur1 Htq1 Hps1 eq_refl Hin)
      as [Hhere|Hlater].
    + exists (nextPage env s). split; [apply list_elem_of_here|exact Hhere].
    + destruct (Hreach record Hlater) as (page & Hpage' & Hrec).
      exists page. split; [|exact Hrec]. simpl. now apply list_elem_of_further.
Qed.

End StaticPull.

Lemma pageSizeOf_positive settings size :
  pageSizeOf settings = Fulfilled size -> 0 < size.
Proof.
  unfold pageSizeOf, defaultPageSize. destruct settings as [[v]|]; simpl.
  - destruct v; try discriminate; try (intros Heq; injection Heq as <-; lia).
    destruct (Z.ltb_spec 0 n) as [Hpos|Hneg]; [|discriminate].
    intros Heq. injection Heq as <-. lia.
  - intros Heq. injection Heq as <-. lia.
Qed.

Lemma StronglySorted_notLater_threeRows : StronglySorted notLater threeRows.
Proof.
  unfold threeRows, notLater, liveRecord.
  repeat constructor; simpl; intros t1 t2 H1 H2; simplify_eq; lia.
Qed.

(** X8. A fulfilled pull has skipped no record.  Against a remote table that
    does not change during the pull, holds its rows by ascending updatedAt
    and answers each query with the rows that pass the filter, after the
    skip, up to the take: every row that passes the filter of the caller and
    whose date is at or after the date loaded at the start is in one of the
    pages that the pull has fetched, records that share their date with the
    last record of a page included. *)
Theorem fulfilled_pull_skips_no_record
    holds rows env fuel query queryId settings s size :
  servesTable holds rows env ->
  StronglySorted notLater rows ->
  validateQuery query = Fulfilled tt ->
  pageSizeOf settings = Fulfilled size ->
  fst (pull env fuel query queryId settings s) = Fulfilled tt ->
  forall record,
    In record rows ->
    satisfiesQuery holds query record = true ->
    updatedAtGe (loadedDate (timezoneOffset env) (pulltime s) queryId) record
      = true ->
    exists page,
      In page (fetchedPages
                 (drop (length (calls s))
                       (calls (snd (pull env fuel query queryId settings s))))) /\
      In record page.
Proof.
  intros Hserves Hsorted Hvalid Hsize Hdone record Hrow Hsat Hge.
  rewrite pull_run, Hvalid, Hsize in *.
  set (start := startState env query queryId size s) in *.
  assert (Hstart : start
            = mkPM size (loadedDate (timezoneOffset env) (pulltime s) queryId)
                   query
                   (pageQueryFor query size
                      (loadedDate (timezoneOffset env) (pulltime s) queryId))
                   queryId (pulltime s)
                   (calls s ++ loadCalls
                       (mkPM size (lastKnownUpdatedAt s) (copyQuery query)
                             (pagePullQuery s) queryId (pulltime s) (calls s)))).
  { unfold start, startState. now rewrite setupQuery_run. }
  destruct (pullAllPages_reaches_remainingRows holds rows env Hserves Hsorted
              fuel start) as (evs & Hc & Hreach).
  { now rewrite Hstart. }
  { now apply startState_tracksCursor. }
  { rewrite Hstart. simpl. now apply pageSizeOf_positive in Hsize. }
  { exact Hdone. }
  destruct (Hreach record) as (page & Hpage & Hrec).
  { rewrite Hstart. unfold remainingRows. simpl.
    assert (Hoff : offset (pageQueryFor query size
                     (loadedDate (timezoneOffset env) (pulltime s) queryId)) = 0).
    { unfold validateQuery, Query.getComponents in Hvalid.
      unfold offset, pageQueryFor, copyQuery. simpl.
      unfold Query.getComponents, Query.setComponents.
      destruct (Components.ordering query); [|discriminate].
      destruct (Components.skip query) as [m|]; simpl in *; [|reflexivity].
      destruct (Z.eqb_spec m 0); [assumption|discriminate]. }
    rewrite Hoff. simpl. apply list_elem_of_In, filter_In. split; [exact Hrow|].
    change (satisfiesQuery holds
              (withSkip (Components.skip query)
                 (pageQueryFor query size
                    (loadedDate (timezoneOffset env) (pulltime s) queryId)))
              record = true).
    now rewrite (satisfiesQuery_pageQuery holds), Hsat, Hge. }
  exists page. split; [|now apply list_elem_of_In].
  rewrite Hc. unfold start at 1. rewrite drop_calls_startState.
  rewrite fetchedPages_app, fetchedPages_loadCalls. simpl.
  now apply list_elem_of_In.
Qed.

Lemma fulfilled_pull_skips_no_record_witness :
  exists page,
    In page (fetchedPages
               (drop (length (calls idleManager))
                     (calls (snd (pull (tableServer threeRows 0) 6 todoQuery
                                    (Some "q"%string) pagesOfTwo idleManager)))))
    /\ In (liveRecord 2 10) page.
Proof.
  apply (fulfilled_pull_skips_no_record (fun _ _ => true) threeRows
           (tableServer threeRows 0) 6 todoQuery (Some "q"%string) pagesOfTwo
           idleManager 2).
  - intros history q. reflexivity.
  - exact StronglySorted_notLater_threeRows.
  - reflexivity.
  - reflexivity.
  - vm_compute. reflexivity.
  - simpl. auto.
  - reflexivity.
  - vm_compute. reflexivity.
Defined.

Section NothingPending.

Variable env : Collaborators.
Hypothesis Hnone : nothingPending env.

Lemma pullPage_findsNothingPending s :
  exists evs,
    calls (snd (pullPage env s)) = calls s ++ evs /\
    Forall (fun e => findsNothingPending e = true) evs.
Proof.
  rewrite pullPage_run.
  assert (Hfetch : Forall (fun e => findsNothingPending e = true) (fetchCalls env s)).
  { unfold fetchCalls, nextPending. rewrite Hnone. repeat constructor. }
  destruct (processAllRecords_loop _ _ [] []) as [b|e|]; cbn [fst snd]; eauto.
  rewrite calls_after_onPagePulled. unfold after_calls at 1. cbn [calls].
  exists ((fetchCalls env s ++ applyCalls s b)
            ++ checkpointCalls (after_calls s (fetchCalls env s ++ applyCalls s b))).
  split; [now rewrite <- !app_assoc|].
  apply Forall_app. split; [apply Forall_app; split|].
  - exact Hfetch.
  - repeat constructor.
  - unfold checkpointCalls. cbn [pullQueryId after_calls].
    destruct (pullQueryId s) as [i|]; [|constructor].
    destruct (truthy_str (Some i)); repeat constructor.
Qed.

Lemma pullAllPages_findsNothingPending fuel : forall s,
  exists evs,
    calls (snd (pullAllPages env fuel s)) = calls s ++ evs /\
    Forall (fun e => findsNothingPending e = true) evs.
Proof.
  induction fuel as [|fuel IH]; intros s.
  - exists []. simpl. now rewrite app_nil_r.
  - rewrite pullAllPages_step.
    destruct (pullPage_findsNothingPending s) as (evs1 & Hc1 & Hall1).
    destruct (pullPage env s) as [[page|e|] s1]; cbn [fst snd] in *; eauto.
    destruct (isPullComplete page); cbn [fst snd]; eauto.
    pose proof (updateQueryForNextPage_frame page s1) as (_ & _ & _ & _ & Hc2).
    destruct (updateQueryForNextPage page s1) as [[[]|e|] s2]; cbn [fst snd] in *;
      try (exists evs1; now rewrite Hc2).
    destruct (IH s2) as (evs2 & Hc3 & Hall2).
    exists (evs1 ++ evs2). rewrite Hc3, Hc2, Hc1, app_assoc.
    split; [reflexivity|]. now apply Forall_app.
Qed.

End NothingPending.

(** In a log of applied pages without pending operations, every record of
    every page is in the batch of a [store.upsert], or its id in the batch
    of a [store.del]. *)
Lemma AppliedPages_applied evs :
  AppliedPages evs ->
  Forall (fun e => findsNothingPending e = true) evs ->
  forall page record,
    In page (fetchedPages evs) -> In record page ->
    (PulledRecord.deleted record = JBool false /\
     exists tableName records,
       In (StoreUpsert tableName records) evs /\ In record records) \/
    (PulledRecord.deleted record = JBool true /\
     exists tableName ids,
       In (StoreDel tableName ids) evs /\ In (PulledRecord.id record) ids).
Proof.
  induction 1 as [|q page0 pending batches checkpoint rest Hloop Hckpt Hrest IH];
    intros Hall page record Hpage Hrec; [destruct Hpage|].
  assert (Hpend : pending = []).
  { apply Forall_cons in Hall as [_ Hall]. apply Forall_cons in Hall as [Hp _].
    now destruct pending. }
  subst pending.
  assert (Hall' : Forall (fun e => findsNothingPending e = true) rest).
  { do 4 (apply Forall_cons in Hall as [_ Hall]). simpl in Hall.
    now apply Forall_app in Hall as [_ Hall]. }
  assert (Hckpt' : fetchedPages (checkpoint ++ rest) = fetchedPages rest).
  { destruct Hckpt as [-> | [row ->]]; reflexivity. }
  simpl in Hpage. rewrite Hckpt' in Hpage.
  destruct Hpage as [<- | Hpage].
  - destruct (forallb hasDeletedFlag page0) eqn:Hflags.
    + rewrite processAllRecords_loop_flags in Hloop by assumption.
      injection Hloop as <-. simpl.
      rewrite forallb_forall in Hflags. specialize (Hflags record Hrec).
      unfold hasDeletedFlag in Hflags.
      destruct (PulledRecord.deleted record) as [| |[|]| | | |] eqn:Hd;
        try discriminate.
      * right. split; [reflexivity|]. eexists _, _. split.
        -- right. right. left. reflexivity.
        -- apply in_map, filter_In. split; [assumption|].
           now apply deletedIs_spec.
      * left. split; [reflexivity|]. eexists _, _. split.
        -- right. right. right. left. reflexivity.
        -- apply filter_In. split; [assumption|]. now apply deletedIs_spec.
    + rewrite processAllRecords_loop_missing in Hloop by assumption.
      discriminate.
  - destruct (IH Hall' page record Hpage Hrec)
      as [(Hd & tn & recs & Hin & Hr) | (Hd & tn & ids & Hin & Hr)].
    + left. split; [assumption|]. exists tn, recs. split; [|assumption].
      apply in_or_app. right. apply in_or_app. now right.
    + right. split; [assumption|]. exists tn, ids. split; [|assumption].
      apply in_or_app. right. apply in_or_app. now right.
Qed.

Lemma startState_remainingRows holds rows env query queryId size s record :
  validateQuery query = Fulfilled tt ->
  In record rows ->
  satisfiesQuery holds query record = true ->
  updatedAtGe (loadedDate (timezoneOffset env) (pulltime s) queryId) record
    = true ->
  record ∈ remainingRows holds rows (startState env query queryId size s).
Proof.
  intros Hvalid Hrow Hsat Hge. unfold startState. rewrite setupQuery_run.
  unfold remainingRows.
  cbn [snd pagePullQuery tablePullQuery pageSize lastKnownUpdatedAt].
  rewrite loadedCursor_loadedDate. cbn [pulltime pullQueryId].
  change (copyQuery query) with query.
  assert (Hoff : offset (pageQueryFor query size
                   (loadedDate (timezoneOffset env) (pulltime s) queryId)) = 0).
  { unfold validateQuery, Query.getComponents in Hvalid.
    unfold offset, pageQueryFor, copyQuery. simpl.
    unfold Query.getComponents, Query.setComponents.
    destruct (Components.ordering query); [|discriminate].
    destruct (Components.skip query) as [m|]; simpl in *; [|reflexivity].
    destruct (Z.eqb_spec m 0); [assumption|discriminate]. }
  rewrite Hoff. simpl. apply list_elem_of_In, filter_In. split; [exact Hrow|].
  change (satisfiesQuery holds
            (withSkip (Components.skip query)
               (pageQueryFor query size
                  (loadedDate (timezoneOffset env) (pulltime s) queryId)))
            record = true).
  now rewrite (satisfiesQuery_pageQuery holds), Hsat, Hge.
Qed.

(** X9. A fulfilled pull has applied every record.  Against the same kind of
    remote table, when the operation table has no pending operation: every
    row that passes the filter of the caller and whose date is at or after
    the date loaded at the start has a boolean deleted flag and was handed
    to the store, in the batch of a [store.upsert] when the flag is [false],
    by its id in the batch of a [store.del] when it is [true]. *)
Theorem fulfilled_pull_applies_every_record
    holds rows env fuel query queryId settings s size :
  servesTable holds rows env ->
  StronglySorted notLater rows ->
  nothingPending env ->
  validateQuery query = Fulfilled tt ->
  pageSizeOf settings = Fulfilled size ->
  fst (pull env fuel query queryId settings s) = Fulfilled tt ->
  forall record,
    In record rows ->
    satisfiesQuery holds query record = true ->
    updatedAtGe (loadedDate (timezoneOffset env) (pulltime s) queryId) record
      = true ->
    let new := drop (length (calls s))
                    (calls (snd (pull env fuel query queryId settings s))) in
    (PulledRecord.deleted record = JBool false /\
     exists tableName records,
       In (StoreUpsert tableName records) new /\ In record records) \/
    (PulledRecord.deleted record = JBool true /\
     exists tableName ids,
       In (StoreDel tableName ids) new /\ In (PulledRecord.id record) ids).
Proof.
  intros Hserves Hsorted Hnone Hvalid Hsize Hdone record Hrow Hsat Hge.
  cbv zeta. rewrite pull_run, Hvalid, Hsize in *.
  set (start := startState env query queryId size s) in *.
  destruct (pullAllPages_reaches_remainingRows holds rows env Hserves Hsorted
              fuel start) as (evs & Hc & Hreach).
  { unfold start, startState. now rewrite setupQuery_run. }
  { now apply startState_tracksCursor. }
  { unfold start, startState. rewrite setupQuery_run. simpl.
    now apply pageSizeOf_positive in Hsize. }
  { exact Hdone. }
  destruct (pullAllPages_cursorAfter env fuel start) as (evs1 & Hc1 & _ & Hlog).
  { intros e. rewrite Hdone. discriminate. }
  destruct (pullAllPages_findsNothingPending env Hnone fuel start)
    as (evs2 & Hc2 & Hquiet).
  assert (evs1 = evs) by (rewrite Hc in Hc1; now apply app_inv_head in Hc1).
  assert (evs2 = evs) by (rewrite Hc in Hc2; now apply app_inv_head in Hc2).
  subst evs1 evs2.
  destruct (Hreach record) as (page & Hpage & Hrec).
  { now apply startState_remainingRows. }
  apply list_elem_of_In in Hpage, Hrec.
  rewrite Hc. unfold start. rewrite drop_calls_startState.
  destruct (AppliedPages_applied evs Hlog Hquiet page record Hpage Hrec)
    as [(Hd & tn & recs & Hin & Hr) | (Hd & tn & ids & Hin & Hr)].
  - left. split; [assumption|]. exists tn, recs. split; [|assumption].
    apply in_or_app. now right.
  - right. split; [assumption|]. exists tn, ids. split; [|assumption].
    apply in_or_app. now right.
Qed.

Lemma StronglySorted_notLater_fourRows : StronglySorted notLater fourRows.
Proof.
  unfold fourRows, notLater, liveRecord, deletedRecord.
  repeat constructor; simpl; intros t1 t2 H1 H2; simplify_eq; lia.
Qed.

Lemma fulfilled_pull_applies_every_record_witness :
  let new := drop (length (calls idleManager))
                  (calls (snd (pull (tableServer fourRows 0) 9 todoQuery
                                 (Some "q"%string) pagesOfTwo idleManager))) in
  exists tableName ids,
    In (StoreDel tableName ids) new /\ In (JNum 3) ids.
Proof.
  cbv zeta.
  destruct (fulfilled_pull_applies_every_record (fun _ _ => true) fourRows
              (tableServer fourRows 0) 9 todoQuery (Some "q"%string) pagesOfTwo
              idleManager 2
              ltac:(intros history q; reflexivity)
              StronglySorted_notLater_fourRows
              ltac:(intros history tableName records; reflexivity)
              eq_refl eq_refl ltac:(vm_compute; reflexivity)
              (deletedRecord 3 20) ltac:(simpl; auto) eq_refl
              ltac:(vm_compute; reflexivity))
    as [(Hd & _) | (_ & Hdel)].
  - discriminate.
  - exact Hdel.
Defined.

(** ** A pull of a table that does not change comes to its end *)



Section Termination.

Variable holds : string -> PulledRecord.t -> bool.
Variable rows : list PulledRecord.t.
Variable env : Collaborators.
Hypothesis Hserves : servesTable holds rows env.
Hypothesis Hflags : forallb hasDeletedFlag rows = true.





End Termination.



(** ** The date literals of the query string *)

Lemma prefix_append pattern rest :
  String.prefix pattern (String.append pattern rest) = true.
Proof.
  induction pattern as [|c pattern IH]; simpl.
  - now destruct rest.
  - destruct (Ascii.ascii_dec c c); [exact IH | congruence].
Qed.

Lemma dropString_append pattern rest :
  dropString (String.length pattern) (String.append pattern rest) = rest.
Proof. induction pattern as [|c pattern IH]; simpl; [reflexivity | exact IH]. Qed.

Lemma replaceFirst_hit pattern replacement s :
  String.prefix pattern s = true ->
  replaceFirst pattern replacement s
  = String.append replacement (dropString (String.length pattern) s).
Proof. intros Hhit. destruct s; cbn [replaceFirst]; now rewrite Hhit. Qed.

Lemma replaceFirst_at_first pattern replacement before rest :
  startsNoneIn pattern before (String.append pattern rest) = true ->
  replaceFirst pattern replacement
    (String.append before (String.append pattern rest))
  = String.append before (String.append replacement rest).
Proof.
  induction before as [|c before IH]; intros Hclear.
  - change (replaceFirst pattern replacement (String.append pattern rest)
            = String.append replacement rest).
    rewrite replaceFirst_hit by apply prefix_append.
    now rewrite dropString_append.
  - cbn [startsNoneIn] in Hclear. apply andb_prop in Hclear as [Hhere Hclear].
    apply negb_true_iff in Hhere.
    change (String.append (String c before) (String.append pattern rest))
      with (String c (String.append before (String.append pattern rest))) in *.
    cbn [replaceFirst]. rewrite Hhere.
    change (String.append (String c before) (String.append replacement rest))
      with (String c (String.append before (String.append replacement rest))).
    f_equal. now apply IH.
Qed.

Lemma replaceFirst_absent pattern replacement s :
  occursIn pattern s = false -> replaceFirst pattern replacement s = s.
Proof.
  induction s as [|c s IH]; intros Hnone; cbn [occursIn] in Hnone;
    apply orb_false_elim in Hnone as [Hhere Hrest]; cbn [replaceFirst];
    rewrite Hhere; [reflexivity|]. f_equal. now apply IH.
Qed.

(** X11. Only the first date literal of the query string is turned into a
    datetimeoffset literal.  A query string without [datetime'] is sent as
    it is; in a query string with one or more of them, the first becomes
    [datetimeoffset'] and everything after it is sent unchanged: when the
    text after it holds another date literal, that one stays a [datetime']
    literal. *)
Theorem only_the_first_date_literal_is_rewritten before rest :
  (forall queryString,
     occursIn "datetime'" queryString = false ->
     toDateTimeOffset queryString = queryString) /\
  (startsNoneIn "datetime'" before (String.append "datetime'" rest) = true ->
   toDateTimeOffset (String.append before (String.append "datetime'" rest))
   = String.append before (String.append "datetimeoffset'" rest)) /\
  (forall between after,
     startsNoneIn "datetime'" before
       (String.append "datetime'"
          (String.append between (String.append "datetime'" after))) = true ->
     toDateTimeOffset
       (String.append before
          (String.append "datetime'"
             (String.append between (String.append "datetime'" after))))
     = String.append before
         (String.append "datetimeoffset'"
            (String.append between (String.append "datetime'" after)))).
Proof.
  split; [|split].
  - intros queryString. apply replaceFirst_absent.
  - apply replaceFirst_at_first.
  - intros between after. apply replaceFirst_at_first.
Qed.

Lemma only_the_first_date_literal_is_rewritten_witness :
  toDateTimeOffset
    "?$filter=((due ge datetime'2020-01-01T00:00:00.000Z') and (updatedAt ge datetime'1969-12-31T00:00:00.000Z'))&$orderby=updatedAt&$top=50"
  = "?$filter=((due ge datetimeoffset'2020-01-01T00:00:00.000Z') and (updatedAt ge datetime'1969-12-31T00:00:00.000Z'))&$orderby=updatedAt&$top=50"%string.
Proof.
  apply (proj2 (proj2 (only_the_first_date_literal_is_rewritten
                         "?$filter=((due ge " EmptyString))
           "2020-01-01T00:00:00.000Z') and (updatedAt ge "
           "1969-12-31T00:00:00.000Z'))&$orderby=updatedAt&$top=50").
  vm_compute. reflexivity.
Defined.

(** ** What reaches the store *)

Lemma processAllRecords_loop_batches pending page batches :
  processAllRecords_loop pending page [] [] = Fulfilled batches ->
  (forall record,
     In record (snd batches) ->
     In record page /\ PulledRecord.deleted record = JBool false) /\
  (forall i,
     In i (fst batches) ->
     exists record,
       In record page /\ PulledRecord.id record = i /\
       PulledRecord.deleted record = JBool true).
Proof.
  intros Hloop. destruct pending as [|op ops].
  - destruct (forallb hasDeletedFlag page) eqn:Hflags.
    + rewrite processAllRecords_loop_flags in Hloop by assumption.
      injection Hloop as <-. simpl. split.
      * intros record Hin. apply filter_In in Hin as [Hin Hd].
        now apply deletedIs_spec in Hd.
      * intros i Hin. apply in_map_iff in Hin as (record & Hid & Hin).
        apply filter_In in Hin as [Hin Hd]. apply deletedIs_spec in Hd. eauto.
    + rewrite processAllRecords_loop_missing in Hloop by assumption.
      discriminate.
  - rewrite processAllRecords_loop_pending in Hloop by discriminate.
    injection Hloop as <-. simpl. split; [intros ? []|intros ? []].
Qed.

Lemma AppliedPages_origin evs :
  AppliedPages evs ->
  (forall tableName records,
     In (StoreUpsert tableName records) evs ->
     (exists q, In q (fetchQueries evs) /\ tableName = Components.table q) /\
     forall record,
       In record records ->
       PulledRecord.deleted record = JBool false /\
       exists page, In page (fetchedPages evs) /\ In record page) /\
  (forall tableName ids,
     In (StoreDel tableName ids) evs ->
     (exists q, In q (fetchQueries evs) /\ tableName = Components.table q) /\
     forall i,
       In i ids ->
       exists page record,
         In page (fetchedPages evs) /\ In record page /\
         PulledRecord.id record = i /\
         PulledRecord.deleted record = JBool true).
Proof.
  induction 1 as [|q page0 pending batches checkpoint rest Hloop Hckpt Hrest IH].
  - split; intros ? ? [].
  - destruct (processAllRecords_loop_batches pending page0 batches Hloop)
      as (Hups & Hdel).
    destruct IH as (IHups & IHdel).
    assert (Hpages : fetchedPages (checkpoint ++ rest) = fetchedPages rest)
      by (destruct Hckpt as [-> | [row ->]]; reflexivity).
    assert (Hqueries : fetchQueries (checkpoint ++ rest) = fetchQueries rest)
      by (destruct Hckpt as [-> | [row ->]]; reflexivity).
    assert (Hin_rest : forall e,
              In e (checkpoint ++ rest) ->
              (forall row, e <> PulltimeUpsert row) -> In e rest).
    { intros e Hin Hne. apply in_app_or in Hin as [Hin|Hin]; [|exact Hin].
      destruct Hckpt as [-> | [row ->]]; [destruct Hin|].
      destruct Hin as [<- | []]. now destruct (Hne row). }
    split; intros tableName batch Hin; simpl in Hin;
      rewrite ?Hpages, ?Hqueries;
      destruct Hin as [Heq | [Heq | [Heq | [Heq | Hin]]]]; try discriminate.
    + injection Heq as <- <-. split; [exists q; simpl; auto|].
      intros record Hrec. destruct (Hups record Hrec) as [Hpage Hd].
      split; [exact Hd|]. exists page0. simpl. auto.
    + apply Hin_rest in Hin; [|discriminate].
      destruct (IHups tableName batch Hin) as ((q' & Hq' & Htn) & Hrecs).
      split; [exists q'; simpl; rewrite Hqueries; auto|].
      intros record Hrec. destruct (Hrecs record Hrec) as (Hd & page & Hp & Hr).
      split; [exact Hd|]. exists page. simpl. rewrite Hpages. auto.
    + injection Heq as <- <-. split; [exists q; simpl; auto|].
      intros i Hi. destruct (Hdel i Hi) as (record & Hrec & Hid & Hd).
      exists page0, record. simpl. auto.
    + apply Hin_rest in Hin; [|discriminate].
      destruct (IHdel tableName batch Hin) as ((q' & Hq' & Htn) & Hids).
      split; [exists q'; simpl; rewrite Hqueries; auto|].
      intros i Hi. destruct (Hids i Hi) as (page & record & Hp & Hr & Hid & Hd).
      exists page, record. simpl. rewrite Hpages. auto.
Qed.

(** X12. A pull hands to the store only what it has fetched.  In a pull
    that is not rejected, every [store.upsert] and every [store.del] is on
    the table of the query of the caller; every record of an upsert batch
    is a record of a fetched page whose deleted flag is [false], and every
    id of a delete batch is the id of a record of a fetched page whose
    deleted flag is [true]. *)
Theorem pull_stores_only_what_it_fetched env fuel query queryId settings s size :
  validateQuery query = Fulfilled tt ->
  pageSizeOf settings = Fulfilled size ->
  (forall e, fst (pull env fuel query queryId settings s) <> Rejected e) ->
  let new := drop (length (calls s))
                  (calls (snd (pull env fuel query queryId settings s))) in
  (forall tableName records,
     In (StoreUpsert tableName records) new ->
     tableName = Components.table query /\
     forall record,
       In record records ->
       PulledRecord.deleted record = JBool false /\
       exists page, In page (fetchedPages new) /\ In record page) /\
  (forall tableName ids,
     In (StoreDel tableName ids) new ->
     tableName = Components.table query /\
     forall i,
       In i ids ->
       exists page record,
         In page (fetchedPages new) /\ In record page /\
         PulledRecord.id record = i /\
         PulledRecord.deleted record = JBool true).
Proof.
  intros Hvalid Hsize Hok. cbv zeta. rewrite pull_run, Hvalid, Hsize in *.
  set (start := startState env query queryId size s) in *.
  destruct (pullAllPages_cursorAfter env fuel start Hok) as (evs & Hc & _ & Hlog).
  destruct (pullAllPages_pageQueries env fuel start) as (_ & evs' & Hc' & Hshape).
  { unfold start, startState. now rewrite setupQuery_run. }
  { now apply startState_tracksCursor. }
  assert (evs' = evs) by (rewrite Hc in Hc'; now apply app_inv_head in Hc').
  subst evs'.
  assert (Htq : tablePullQuery start = query)
    by (unfold start, startState; now rewrite setupQuery_run).
  rewrite Htq in Hshape.
  assert (Htable : forall q, In q (fetchQueries evs) ->
                             Components.table q = Components.table query).
  { intros q Hq. rewrite Forall_forall in Hshape.
    apply list_elem_of_In, Hshape in Hq. apply Hq. }
  rewrite Hc. unfold start. rewrite drop_calls_startState.
  rewrite fetchedPages_app, fetchedPages_loadCalls. simpl.
  assert (Hnew : forall e,
            In e (loadCalls (mkPM size (lastKnownUpdatedAt s) (copyQuery query)
                               (pagePullQuery s) queryId (pulltime s) (calls s))
                    ++ evs) ->
            (forall i row, e <> PulltimeLookup i row) -> In e evs).
  { intros e Hin Hne. apply in_app_or in Hin as [Hin|Hin]; [|exact Hin].
    unfold loadCalls in Hin. simpl in Hin. destruct queryId as [i|]; [|destruct Hin].
    destruct (negb (String.eqb i EmptyString)); [|destruct Hin].
    destruct Hin as [<- | []]. now destruct (Hne i (pulltime s !! i)). }
  destruct (AppliedPages_origin evs Hlog) as (Hups & Hdel).
  split; intros tableName batch Hin; apply Hnew in Hin; try discriminate.
  - destruct (Hups tableName batch Hin) as ((q & Hq & ->) & Hrecs).
    split; [now apply Htable | exact Hrecs].
  - destruct (Hdel tableName batch Hin) as ((q & Hq & ->) & Hids).
    split; [now apply Htable | exact Hids].
Qed.

Lemma pull_stores_only_what_it_fetched_witness :
  exists page record,
    In page
       (fetchedPages
          (drop (length (calls idleManager))
                (calls (snd (pull (tableServer fourRows 0) 9 todoQuery
                               (Some "q"%string) pagesOfTwo idleManager))))) /\
    In record page /\
    PulledRecord.id record = JNum 3 /\
    PulledRecord.deleted record = JBool true.
Proof.
  destruct (proj2 (pull_stores_only_what_it_fetched
                     (tableServer fourRows 0) 9 todoQuery (Some "q"%string)
                     pagesOfTwo idleManager 2 eq_refl eq_refl
                     ltac:(intros e; vm_compute; discriminate))
              "todo"%string [JNum 3]) as (_ & Hids).
  - vm_compute. auto 20.
  - apply (Hids (JNum 3)). simpl. auto.
Defined.
